(** * Body-composition metrics of [streamlit_app.py]

    A shallow embedding of the segmentation analysis script: the loop that
    reads the uploaded NIfTI files, the volume / mass / ratio arithmetic of
    [analyze_voxel_data], and the file-name gate that decides whether the
    analysis is run.

    Numbers.  Voxel counts are natural numbers ([N]).  Every other number of
    the script is a Python / NumPy float; it is embedded as an exact rational
    ([Qc], canonical rationals with Leibniz equality), so that [*], [+] and
    [/] are the exact operations and rounding is not modelled.  Python's
    [None] is [None] of [option Qc].

    Exceptions.  The operators of Python are dynamically typed: an
    arithmetic operator applied to [None] raises [TypeError], and a float
    division by zero raises [ZeroDivisionError] (with NumPy scalars: yields
    an infinity or a NaN and a warning).  Both outcomes are kept apart from
    ordinary values by the [result] type.

    Binary64.  Exact rationals have no rounding, no underflow and no
    overflow, so the exact embedding says which operands, guards and
    branches the code uses, and is not the place to decide whether a
    computed float is zero.  The module [B64] reads lines 57-78 a second
    time over IEEE binary64 (the kernel's primitive floats), with the
    semantics of NumPy scalars: there a product can underflow to [0.0] and
    a division by [0.0] returns an infinity or a NaN.  It is evaluated on
    concrete inputs.

    Collaborators.  Decoding a NIfTI file is the imaging library's work: an
    uploaded file is taken as already decoded, with its voxel grid and its
    three spacings.  The table, the chart and the spreadsheet, which only
    consume the returned rows, are left out. *)

From Stdlib Require Import QArith Qcanon Qcabs.
From Stdlib Require PrimFloat Uint63.
From stdpp Require Import numbers strings gmap fin_maps list.

Local Open Scope Qc_scope.

(** ** Python values, exceptions and operators *)

Module Py.

Inductive exn : Set :=
| TypeError
| ZeroDivisionError.

Inductive result (A : Type) : Type :=
| Ok (a : A)
| Raise (e : exn).
Global Arguments Ok {A} a.
Global Arguments Raise {A} e.

Definition bind {A B : Type} (m : result A) (k : A -> result B) : result B :=
  match m with
  | Ok a => k a
  | Raise e => Raise e
  end.

Global Instance result_ret : MRet result := @Ok.
Global Instance result_bind : MBind result := fun A B k m => bind m k.

(** A float or [None]. *)
Abbreviation value := (option Qc).

(** An [int] operand promoted to float in mixed arithmetic. *)
Definition of_int (n : N) : Qc := Qc_of_Z (Z.of_N n).

(** [bool(n)] of an [int]. *)
Definition truthy_int (n : N) : bool := negb (n =? 0)%N.

(** [bool(x)] of a float or [None]: [None] and [0.0] are falsy. *)
Definition truthy (x : value) : bool :=
  match x with
  | None => false
  | Some q => bool_decide (q <> 0)
  end.

(** [x * y], [x + y], [x / y] on operands that may be [None].  A zero
    divisor is kept apart as [ZeroDivisionError]; with the NumPy scalars of
    the script the quotient is an infinity or a NaN instead, which [B64.div]
    below returns. *)
Definition mul (x y : value) : result value :=
  match x, y with
  | Some a, Some b => Ok (Some (a * b))
  | _, _ => Raise TypeError
  end.

Definition add (x y : value) : result value :=
  match x, y with
  | Some a, Some b => Ok (Some (a + b))
  | _, _ => Raise TypeError
  end.

Definition div (x y : value) : result value :=
  match x, y with
  | Some a, Some b =>
      if bool_decide (b = 0) then Raise ZeroDivisionError
      else Ok (Some (a / b))
  | _, _ => Raise TypeError
  end.

End Py.
Import Py.

(** ** Constants (lines 11-13) *)

Definition file_names : list string :=
  ["skeletal_muscle.nii.gz"; "subcutaneous_fat.nii.gz"; "torso_fat.nii.gz"].
Definition masse_vol_graisse : Qc := Q2Qc 0.9196.
Definition masse_vol_muscle : Qc := Q2Qc 1.06.

(** ** An uploaded file, as decoded by the imaging library

    [name] is [uploaded_file.name]; [data] is the voxel grid returned by
    [img.get_fdata()], flattened; [zooms] are the first three entries of
    [img.header.get_zooms()]. *)

Record uploaded_file : Type := UploadedFile {
  name : string;
  data : list Qc;
  zooms : Qc * Qc * Qc
}.

(** [ndarray.sum()] of a boolean array: the number of [True] entries. *)
Definition ndarray_sum (mask : list bool) : N :=
  foldr (fun b acc => (N.b2n b + acc)%N) 0%N mask.

(** Line 53: [(data > 0).sum()]. *)
Definition voxel_count_of (f : uploaded_file) : N :=
  ndarray_sum ((fun x => bool_decide (0 < x)) <$> data f).

(** Line 54: [abs(zooms[0] * zooms[1] * zooms[2]) / 1000], as a formula.
    The float product of the script can underflow to [0.0] or overflow to
    an infinity for spacings that are neither; the exact value cannot. *)
Definition voxel_volume_of (f : uploaded_file) : Qc :=
  let '(z0, z1, z2) := zooms f in
  Qcabs (z0 * z1 * z2) / Q2Qc 1000.

(** ** The reading loop (lines 40-55)

    The state of the loop is the dictionary [voxel_data] and the variable
    [voxel_volume], which starts as [None]. *)

Definition loop_state : Type := gmap string N * value.

Definition loop_body (st : loop_state) (uploaded_file : uploaded_file)
  : loop_state :=
  let '(voxel_data, voxel_volume) := st in
  let file_name := name uploaded_file in
  if bool_decide (file_name ∈ file_names) then
    let voxel_count := voxel_count_of uploaded_file in
    let voxel_volume := Some (voxel_volume_of uploaded_file) in
    (<[file_name := voxel_count]> voxel_data, voxel_volume)
  else st.

Definition read_files (uploaded_files : list uploaded_file) : loop_state :=
  foldl loop_body (∅, None) uploaded_files.

(** ** The metrics (lines 57-78) *)

(** One value per tissue: the three volumes, or the three masses. *)
Record tissues (A : Type) : Type := Tissues {
  muscle : A;
  graisse_sous_cut : A;
  graisse_viscerale : A
}.
Arguments Tissues {A} _ _ _.
Arguments muscle {A} _.
Arguments graisse_sous_cut {A} _.
Arguments graisse_viscerale {A} _.

(** [voxel_data.get(key, 0)]. *)
Definition get (voxel_data : gmap string N) (key : string) : N :=
  default 0%N (voxel_data !! key).

(** Lines 61-63: [vox_count * voxel_volume if vox_count else None]. *)
Definition volume_of (vox_count : N) (voxel_volume : value) : result value :=
  if truthy_int vox_count then mul (Some (of_int vox_count)) voxel_volume
  else Ok None.

(** Lines 57-63: the three counts, then the three volumes. *)
Definition volumes (voxel_data : gmap string N) (voxel_volume : value)
  : result (tissues value) :=
  let vox_count_muscle := get voxel_data "skeletal_muscle.nii.gz" in
  let vox_count_graisse_viscerale := get voxel_data "torso_fat.nii.gz" in
  let vox_count_graisse_sous_cut := get voxel_data "subcutaneous_fat.nii.gz" in
  volume_muscle ← volume_of vox_count_muscle voxel_volume;
  volume_graisse_viscerale ← volume_of vox_count_graisse_viscerale voxel_volume;
  volume_graisse_sous_cut ← volume_of vox_count_graisse_sous_cut voxel_volume;
  Ok (Tissues volume_muscle volume_graisse_sous_cut volume_graisse_viscerale).

(** The expression [volume * masse_vol / 1000 if volume else None], which
    lines 70-77 repeat for every mass.  The exact value is zero only for a
    zero volume; the float of the script can also underflow to [0.0]
    ([B64.masse_of]). *)
Definition masse_of (volume : value) (masse_vol : Qc) : result value :=
  if truthy volume then
    x ← mul volume (Some masse_vol);
    div x (Some (Q2Qc 1000))
  else Ok None.

(** Lines 70-72: the values of the three mass rows. *)
Definition masses (volume : tissues value) : result (tissues value) :=
  masse_muscle ← masse_of (muscle volume) masse_vol_muscle;
  masse_sous_cut ← masse_of (graisse_sous_cut volume) masse_vol_graisse;
  masse_viscerale ← masse_of (graisse_viscerale volume) masse_vol_graisse;
  Ok (Tissues masse_muscle masse_sous_cut masse_viscerale).

(** Lines 73-74: subcutaneous mass / visceral mass. *)
Definition rapport_sous_cut_viscerale (volume : tissues value) : result value :=
  a ← masse_of (graisse_sous_cut volume) masse_vol_graisse;
  b ← masse_of (graisse_viscerale volume) masse_vol_graisse;
  div a b.

(** Lines 75-77: (subcutaneous mass + visceral mass) / muscle mass. *)
Definition rapport_graisse_muscle (volume : tissues value) : result value :=
  a ← masse_of (graisse_sous_cut volume) masse_vol_graisse;
  b ← masse_of (graisse_viscerale volume) masse_vol_graisse;
  s ← add a b;
  c ← masse_of (muscle volume) masse_vol_muscle;
  div s c.

(** Lines 66-78: the rows of [result], evaluated from first to last. *)
Definition rows (volume : tissues value) : result (list (string * value)) :=
  masse ← masses volume;
  r1 ← rapport_sous_cut_viscerale volume;
  r2 ← rapport_graisse_muscle volume;
  Ok [ ("Volume Muscle (cm³)", muscle volume);
       ("Volume Graisse Sous-cutanée (cm³)", graisse_sous_cut volume);
       ("Volume Graisse Viscerale (cm³)", graisse_viscerale volume);
       ("Masse Muscle (kg)", muscle masse);
       ("Masse Graisse Sous-cutanée (kg)", graisse_sous_cut masse);
       ("Masse Graisse Viscerale (kg)", graisse_viscerale masse);
       ("Rapport Graisse Sous-cutanée / Viscerale", r1);
       ("Rapport Graisse / Muscle", r2) ].

(** Lines 57-83 on the state the loop leaves. *)
Definition metrics (voxel_data : gmap string N) (voxel_volume : value)
  : result (list (string * value)) :=
  volume ← volumes voxel_data voxel_volume;
  rows volume.

(** The whole function; the returned data frame is its list of rows. *)
Definition analyze_voxel_data (uploaded_files : list uploaded_file)
  : result (list (string * value)) :=
  let '(voxel_data, voxel_volume) := read_files uploaded_files in
  metrics voxel_data voxel_volume.

(** ** The upload gate (lines 122-141)

    What the page shows for a given upload. *)

Inductive page : Type :=
| Nothing
| Error (missing_files extra_files : list string)
| Results (df : result (list (string * value)))
| Warning.

Definition main (uploaded_files : list uploaded_file) : page :=
  match uploaded_files with
  | [] => Nothing
  | _ =>
      let uploaded_filenames := name <$> uploaded_files in
      let missing_files :=
        filter (fun f => f ∉ uploaded_filenames) file_names in
      let extra_files :=
        filter (fun f => f ∉ file_names) uploaded_filenames in
      if bool_decide (missing_files <> [] \/ extra_files <> []) then
        Error missing_files extra_files
      else if bool_decide (length uploaded_files = 3%nat) then
        Results (analyze_voxel_data uploaded_files)
      else Warning
  end.

(** ** Tissue roles

    The three roles of the specification, the file each one is uploaded as,
    and the component of a [tissues] record that belongs to it. *)

Inductive role : Set :=
| skeletal_muscle
| subcutaneous_fat
| torso_fat.

Definition role_file (r : role) : string :=
  match r with
  | skeletal_muscle => "skeletal_muscle.nii.gz"
  | subcutaneous_fat => "subcutaneous_fat.nii.gz"
  | torso_fat => "torso_fat.nii.gz"
  end.

Definition pick {A : Type} (r : role) (t : tissues A) : A :=
  match r with
  | skeletal_muscle => muscle t
  | subcutaneous_fat => graisse_sous_cut t
  | torso_fat => graisse_viscerale t
  end.

(** The files of an upload that the loop recognises. *)
Definition recognized (uploaded_files : list uploaded_file)
  : list uploaded_file :=
  filter (fun f => name f ∈ file_names) uploaded_files.

(** ** Closed forms

    What the conditional expressions evaluate to, by cases; the lemmas
    below relate them to the definitions above. *)

(** The value of a volume, by cases on the stored count. *)
Definition volume_value (voxel_data : gmap string N) (vv : Qc) (key : string)
  : value :=
  match voxel_data !! key with
  | Some c => if bool_decide (0 < c)%N then Some (of_int c * vv) else None
  | None => None
  end.

(** The value of a volume after the loop, by cases on its final state. *)
Definition loop_volume_value (st : loop_state) (key : string) : value :=
  match st.1 !! key, st.2 with
  | Some c, Some vv =>
      if bool_decide (0 < c)%N then Some (of_int c * vv) else None
  | _, _ => None
  end.

(** The value of the conditional expression, by cases on the volume. *)
Definition masse_value (volume : value) (masse_vol : Qc) : value :=
  match volume with
  | Some v => if bool_decide (v = 0) then None
              else Some (v * masse_vol / Q2Qc 1000)
  | None => None
  end.

(** The uploaded names are exactly the three expected names. *)
Definition names_match (uploaded_files : list uploaded_file) : Prop :=
  forall f, f ∈ name <$> uploaded_files <-> f ∈ file_names.

(** The lists of line 124 and line 125. *)
Definition missing_files_of (uploaded_files : list uploaded_file)
  : list string :=
  filter (fun f => f ∉ name <$> uploaded_files) file_names.

Definition extra_files_of (uploaded_files : list uploaded_file)
  : list string :=
  filter (fun f => f ∉ file_names) (name <$> uploaded_files).

(** ** Uploads used as examples *)

(** The fixture of the specification: the counts of the three masks. *)
Definition fixture : gmap string N :=
  {[ "skeletal_muscle.nii.gz" := 1000000%N;
     "subcutaneous_fat.nii.gz" := 500000%N;
     "torso_fat.nii.gz" := 200000%N ]}.

(** One positive voxel per mask, and a zero spacing in every header. *)
Definition zero_spacing_upload : list uploaded_file :=
  [ UploadedFile "skeletal_muscle.nii.gz" [1] (0, 1, 1);
    UploadedFile "subcutaneous_fat.nii.gz" [1] (0, 1, 1);
    UploadedFile "torso_fat.nii.gz" [1] (0, 1, 1) ].

(** The torso-fat mask has no positive voxel. *)
Definition empty_mask_upload : list uploaded_file :=
  [ UploadedFile "skeletal_muscle.nii.gz" [1; 1; 0] (1, 1, 1);
    UploadedFile "subcutaneous_fat.nii.gz" [0; 1; 0] (1, 1, 1);
    UploadedFile "torso_fat.nii.gz" [0; 0; 0] (1, 1, 1) ].

(** The muscle mask is uploaded under another name. *)
Definition misnamed_upload : list uploaded_file :=
  [ UploadedFile "muscle.nii.gz" [1] (1, 1, 1);
    UploadedFile "subcutaneous_fat.nii.gz" [1] (1, 1, 1);
    UploadedFile "torso_fat.nii.gz" [1] (1, 1, 1) ].

(** The three headers give three different voxel volumes. *)
Definition disagreeing_upload : list uploaded_file :=
  [ UploadedFile "skeletal_muscle.nii.gz" [1; 1] (1, 1, 1);
    UploadedFile "subcutaneous_fat.nii.gz" [1] (2, 2, 2);
    UploadedFile "torso_fat.nii.gz" [1; 1; 1] (Q2Qc 3, 1, 1) ].

(** ** The chart (lines 92-116)

    [plot_data] reads the three masses out of the table by position, hands
    them to the plotting library, and writes each mass above its bar.  The
    plotting calls are taken to draw what they are given; the rendering of a
    float with two decimals ([f'{value:.2f}']) is the parameter [format_2f].
    Besides the exceptions of the operators, a positional read past the end
    of the table raises [IndexError].  A mass read from the table is meant
    to be a number: the table library may store a missing cell as a NaN
    rather than [None], and what is drawn for such a cell is not part of
    this model, which lets the operator raise on [None]. *)

Inductive plot_exn : Set :=
| IndexError
| Operator (e : exn).

Inductive plot_result (A : Type) : Type :=
| Plotted (a : A)
| PlotRaise (e : plot_exn).
Arguments Plotted {A} a.
Arguments PlotRaise {A} e.

Definition plot_bind {A B : Type} (m : plot_result A)
    (k : A -> plot_result B) : plot_result B :=
  match m with
  | Plotted a => k a
  | PlotRaise e => PlotRaise e
  end.

Global Instance plot_result_ret : MRet plot_result := @Plotted.
Global Instance plot_result_bind : MBind plot_result :=
  fun A B k m => plot_bind m k.

(** An operator of Python evaluated inside [plot_data]. *)
Definition operator {A : Type} (m : result A) : plot_result A :=
  match m with
  | Ok a => Plotted a
  | Raise e => PlotRaise (Operator e)
  end.

(** [df['Valeur'].iloc[i]]. *)
Definition iloc (df : list (string * value)) (i : nat) : plot_result value :=
  match df !! i with
  | Some row => Plotted row.2
  | None => PlotRaise IndexError
  end.

(** One call [ax.text(i, value + 0.05, f'{value:.2f} kg', ...)]. *)
Record annotation : Type := Annotation {
  text_x : nat;
  text_y : Qc;
  text_s : string
}.

(** What is drawn: the bars, the texts above them, and the two captions. *)
Record chart : Type := Chart {
  bars : list (string * value);
  texts : list annotation;
  ylabel : string;
  title : string
}.

(** Lines 109-110: the loop over [enumerate(masses)], from index [i]. *)
Fixpoint annotate (format_2f : Qc -> string) (i : nat) (masses : list value)
  : plot_result (list annotation) :=
  match masses with
  | [] => Plotted []
  | value :: masses =>
      y ← operator (add value (Some (Q2Qc 0.05)));
      match value, y with
      | Some v, Some y =>
          rest ← annotate format_2f (S i) masses;
          Plotted (Annotation i y (format_2f v +:+ " kg") :: rest)
      | _, _ => PlotRaise (Operator TypeError)
      end
  end.

Definition plot_data (format_2f : Qc -> string) (df : list (string * value))
  : plot_result chart :=
  m3 ← iloc df 3;
  m4 ← iloc df 4;
  m5 ← iloc df 5;
  let masses := [m3; m4; m5] in
  let tissues := ["Muscle"; "Graisse Sous-cutanée"; "Graisse Viscerale"] in
  texts ← annotate format_2f 0 masses;
  Plotted (Chart (zip tissues masses) texts
                 "Masse (kg)" "Masse des différents tissus").

(** ** Lines 57-78 over binary64

    The operands of lines 61-77 are NumPy scalars: a count is an [int64], a
    voxel volume a [float32] or a [float64] (each [float32] is a [float64]),
    and every product and quotient is computed in [float64].  A count is
    converted to the nearest [float64]; counts are below 2^63.  Truthiness
    is [x != 0], so [0.0] and [-0.0] are falsy and a NaN is truthy.  A
    division never raises. *)

Module B64.
Import PrimFloat.
Set Warnings "-inexact-float".

Abbreviation value := (option float).

Definition of_int (n : N) : float := of_uint63 (Uint63.of_Z (Z.of_N n)).

Definition truthy (x : value) : bool :=
  match x with
  | None => false
  | Some q => negb (q =? 0)%float
  end.

Definition mul (x y : value) : result value :=
  match x, y with
  | Some a, Some b => Ok (Some (a * b)%float)
  | _, _ => Raise TypeError
  end.

Definition add (x y : value) : result value :=
  match x, y with
  | Some a, Some b => Ok (Some (a + b)%float)
  | _, _ => Raise TypeError
  end.

Definition div (x y : value) : result value :=
  match x, y with
  | Some a, Some b => Ok (Some (a / b)%float)
  | _, _ => Raise TypeError
  end.

Definition masse_vol_graisse : float := 0.9196%float.
Definition masse_vol_muscle : float := 1.06%float.

Definition volume_of (vox_count : N) (voxel_volume : value) : result value :=
  if truthy_int vox_count then mul (Some (of_int vox_count)) voxel_volume
  else Ok None.

Definition volumes (voxel_data : gmap string N) (voxel_volume : value)
  : result (tissues value) :=
  let vox_count_muscle := get voxel_data "skeletal_muscle.nii.gz" in
  let vox_count_graisse_viscerale := get voxel_data "torso_fat.nii.gz" in
  let vox_count_graisse_sous_cut := get voxel_data "subcutaneous_fat.nii.gz" in
  volume_muscle ← volume_of vox_count_muscle voxel_volume;
  volume_graisse_viscerale ← volume_of vox_count_graisse_viscerale voxel_volume;
  volume_graisse_sous_cut ← volume_of vox_count_graisse_sous_cut voxel_volume;
  Ok (Tissues volume_muscle volume_graisse_sous_cut volume_graisse_viscerale).

Definition masse_of (volume : value) (masse_vol : float) : result value :=
  if truthy volume then
    x ← mul volume (Some masse_vol);
    div x (Some (of_int 1000))
  else Ok None.

Definition masses (volume : tissues value) : result (tissues value) :=
  masse_muscle ← masse_of (muscle volume) masse_vol_muscle;
  masse_sous_cut ← masse_of (graisse_sous_cut volume) masse_vol_graisse;
  masse_viscerale ← masse_of (graisse_viscerale volume) masse_vol_graisse;
  Ok (Tissues masse_muscle masse_sous_cut masse_viscerale).

Definition rapport_sous_cut_viscerale (volume : tissues value) : result value :=
  a ← masse_of (graisse_sous_cut volume) masse_vol_graisse;
  b ← masse_of (graisse_viscerale volume) masse_vol_graisse;
  div a b.

Definition rapport_graisse_muscle (volume : tissues value) : result value :=
  a ← masse_of (graisse_sous_cut volume) masse_vol_graisse;
  b ← masse_of (graisse_viscerale volume) masse_vol_graisse;
  s ← add a b;
  c ← masse_of (muscle volume) masse_vol_muscle;
  div s c.

Definition rows (volume : tissues value) : result (list (string * value)) :=
  masse ← masses volume;
  r1 ← rapport_sous_cut_viscerale volume;
  r2 ← rapport_graisse_muscle volume;
  Ok [ ("Volume Muscle (cm³)", muscle volume);
       ("Volume Graisse Sous-cutanée (cm³)", graisse_sous_cut volume);
       ("Volume Graisse Viscerale (cm³)", graisse_viscerale volume);
       ("Masse Muscle (kg)", muscle masse);
       ("Masse Graisse Sous-cutanée (kg)", graisse_sous_cut masse);
       ("Masse Graisse Viscerale (kg)", graisse_viscerale masse);
       ("Rapport Graisse Sous-cutanée / Viscerale", r1);
       ("Rapport Graisse / Muscle", r2) ].

Definition metrics (voxel_data : gmap string N) (voxel_volume : value)
  : result (list (string * value)) :=
  volume ← volumes voxel_data voxel_volume;
  rows volume.

(** A strictly positive subnormal voxel volume, 2^-1073. *)
Definition subnormal_volume : float := 0x1p-1073%float.

(** The decimal constants of the fixture, as the nearest [float64]. *)
Definition fixture_volume : float := 0.001%float.
Definition fixture_rows : list (string * value) :=
  [ ("Volume Muscle (cm³)", Some 1000%float);
    ("Volume Graisse Sous-cutanée (cm³)", Some 500%float);
    ("Volume Graisse Viscerale (cm³)", Some 200%float);
    ("Masse Muscle (kg)", Some 1.06%float);
    ("Masse Graisse Sous-cutanée (kg)", Some 0.4598%float);
    ("Masse Graisse Viscerale (kg)", Some 0.18392%float);
    ("Rapport Graisse Sous-cutanée / Viscerale", Some 2.5%float);
    ("Rapport Graisse / Muscle", Some 0.60728301886792446%float) ].

End B64.

(** Three masks of 3, 2 and 1 positive voxels. *)
Definition small_counts : gmap string N :=
  {[ "skeletal_muscle.nii.gz" := 3%N;
     "subcutaneous_fat.nii.gz" := 2%N;
     "torso_fat.nii.gz" := 1%N ]}.

(** ** More closed forms *)

(** The rows returned for three positive counts and a voxel volume. *)
Definition rows_value (c_muscle c_sous_cut c_viscerale : N) (vv : Qc)
  : list (string * value) :=
  let volume_muscle := of_int c_muscle * vv in
  let volume_sous_cut := of_int c_sous_cut * vv in
  let volume_viscerale := of_int c_viscerale * vv in
  let masse_muscle := volume_muscle * masse_vol_muscle / Q2Qc 1000 in
  let masse_sous_cut := volume_sous_cut * masse_vol_graisse / Q2Qc 1000 in
  let masse_viscerale := volume_viscerale * masse_vol_graisse / Q2Qc 1000 in
  [ ("Volume Muscle (cm³)", Some volume_muscle);
    ("Volume Graisse Sous-cutanée (cm³)", Some volume_sous_cut);
    ("Volume Graisse Viscerale (cm³)", Some volume_viscerale);
    ("Masse Muscle (kg)", Some masse_muscle);
    ("Masse Graisse Sous-cutanée (kg)", Some masse_sous_cut);
    ("Masse Graisse Viscerale (kg)", Some masse_viscerale);
    ("Rapport Graisse Sous-cutanée / Viscerale",
     Some (masse_sous_cut / masse_viscerale));
    ("Rapport Graisse / Muscle",
     Some ((masse_sous_cut + masse_viscerale) / masse_muscle)) ].

(** The labels of the eight rows, in the order of the table. *)
Definition labels : list string :=
  [ "Volume Muscle (cm³)";
    "Volume Graisse Sous-cutanée (cm³)";
    "Volume Graisse Viscerale (cm³)";
    "Masse Muscle (kg)";
    "Masse Graisse Sous-cutanée (kg)";
    "Masse Graisse Viscerale (kg)";
    "Rapport Graisse Sous-cutanée / Viscerale";
    "Rapport Graisse / Muscle" ].

(** * Properties *)

(** Evaluation of a closed term, rationals compared by their value. *)
Ltac qc_eval :=
  vm_compute;
  repeat match goal with
         | |- @eq Qc _ _ => apply Qc_is_canon; reflexivity
         | |- _ => reflexivity
         | |- _ => progress f_equal
         end.

(** ** Arithmetic facts *)

Lemma thousand_neq_0 : Q2Qc 1000 <> 0.
Proof. intros H. apply (f_equal this) in H. vm_compute in H. discriminate. Qed.

Lemma masse_vol_muscle_pos : 0 < masse_vol_muscle.
Proof. reflexivity. Qed.

Lemma masse_vol_graisse_pos : 0 < masse_vol_graisse.
Proof. reflexivity. Qed.

Lemma truthy_int_pos (n : N) : truthy_int n = bool_decide (0 < n)%N.
Proof.
  unfold truthy_int.
  destruct (N.eqb_spec n 0) as [->|Hn]; case_bool_decide; simpl; first [done | lia].
Qed.

Lemma of_int_0 : of_int 0 = 0.
Proof. apply Qc_is_canon. reflexivity. Qed.

Lemma of_int_pos (n : N) : (0 < n)%N -> 0 < of_int n.
Proof.
  intros Hn. unfold of_int, Qclt, Qc_of_Z. simpl.
  unfold Qlt. simpl. lia.
Qed.

Lemma Qc_pos_neq_0 (x : Qc) : 0 < x -> x <> 0.
Proof. intros Hx Heq. symmetry in Heq. exact (Qclt_not_eq _ _ Hx Heq). Qed.

Lemma per_thousand_neq_0 (x : Qc) : x <> 0 -> x / Q2Qc 1000 <> 0.
Proof.
  intros Hx H. unfold Qcdiv in H.
  apply Qcmult_integral in H as [H|H]; [done|].
  apply (f_equal this) in H. vm_compute in H. discriminate.
Qed.

Lemma Qcmult_neq_0 (x y : Qc) : x <> 0 -> y <> 0 -> x * y <> 0.
Proof. intros Hx Hy H. apply Qcmult_integral in H as [H|H]; done. Qed.

(** ** Sequencing *)

Lemma bind_Ok {A B : Type} (a : A) (k : A -> result B) : (Ok a ≫= k) = k a.
Proof. reflexivity. Qed.

Lemma bind_Raise {A B : Type} (e : exn) (k : A -> result B) :
  (Raise e ≫= k) = Raise e.
Proof. reflexivity. Qed.

(** ** The two conditional expressions *)

Lemma volume_of_pos (c : N) (vv : Qc) :
  (0 < c)%N -> volume_of c (Some vv) = Ok (Some (of_int c * vv)).
Proof.
  intros Hc. unfold volume_of. rewrite truthy_int_pos.
  by rewrite bool_decide_eq_true_2.
Qed.

Lemma volume_of_0 (voxel_volume : value) : volume_of 0 voxel_volume = Ok None.
Proof. reflexivity. Qed.

Lemma masse_of_None (masse_vol : Qc) : masse_of None masse_vol = Ok None.
Proof. reflexivity. Qed.

Lemma masse_of_0 (masse_vol : Qc) : masse_of (Some 0) masse_vol = Ok None.
Proof. reflexivity. Qed.

Lemma masse_of_neq_0 (v masse_vol : Qc) :
  v <> 0 ->
  masse_of (Some v) masse_vol = Ok (Some (v * masse_vol / Q2Qc 1000)).
Proof.
  intros Hv. unfold masse_of. simpl.
  by rewrite (bool_decide_eq_true_2 _ Hv).
Qed.

Lemma masse_of_value (volume : value) (masse_vol : Qc) :
  masse_of volume masse_vol = Ok (masse_value volume masse_vol).
Proof.
  destruct volume as [v|]; [|done]. simpl.
  case_bool_decide as Hv.
  - subst v. apply masse_of_0.
  - by apply masse_of_neq_0.
Qed.

Lemma masse_value_neq_0 (volume : value) (masse_vol m : Qc) :
  masse_vol <> 0 -> masse_value volume masse_vol = Some m -> m <> 0.
Proof.
  intros Hd. destruct volume as [v|]; [|done]. simpl.
  case_bool_decide as Hv; [done|]. intros [= <-].
  by apply per_thousand_neq_0, Qcmult_neq_0.
Qed.

(** ** The reading loop *)

Lemma loop_body_recognized (st : loop_state) (f : uploaded_file) :
  name f ∈ file_names ->
  loop_body st f =
    (<[name f := voxel_count_of f]> st.1, Some (voxel_volume_of f)).
Proof.
  intros Hf. destruct st as [vd vv]. unfold loop_body.
  by rewrite (bool_decide_eq_true_2 _ Hf).
Qed.

Lemma loop_body_ignored (st : loop_state) (f : uploaded_file) :
  name f ∉ file_names -> loop_body st f = st.
Proof.
  intros Hf. destruct st as [vd vv]. unfold loop_body.
  by rewrite (bool_decide_eq_false_2 _ Hf).
Qed.

Lemma recognized_snoc (fs : list uploaded_file) (f : uploaded_file) :
  recognized (fs ++ [f]) =
    if bool_decide (name f ∈ file_names) then recognized fs ++ [f]
    else recognized fs.
Proof.
  unfold recognized. rewrite filter_app.
  case_bool_decide as Hf.
  - by rewrite filter_cons_True by done.
  - rewrite filter_cons_False by done. simpl. by rewrite app_nil_r.
Qed.

(** After the loop, [voxel_volume] is the value of the last recognised
    file, and the initial value when no file was recognised. *)
Lemma foldl_loop_volume (fs : list uploaded_file) (st : loop_state) :
  (foldl loop_body st fs).2 =
    match last (recognized fs) with
    | Some f => Some (voxel_volume_of f)
    | None => st.2
    end.
Proof.
  induction fs as [|f fs IH] using rev_ind; [done|].
  rewrite foldl_app, recognized_snoc. simpl.
  case_bool_decide as Hf.
  - rewrite last_snoc. by rewrite loop_body_recognized.
  - by rewrite loop_body_ignored.
Qed.

(** After the loop, [voxel_data] maps a name to the count of the last
    recognised file uploaded under that name. *)
Lemma foldl_loop_data (fs : list uploaded_file) (st : loop_state) (key : string) :
  (foldl loop_body st fs).1 !! key =
    match last (filter (fun f => name f = key) (recognized fs)) with
    | Some f => Some (voxel_count_of f)
    | None => st.1 !! key
    end.
Proof.
  induction fs as [|f fs IH] using rev_ind; [done|].
  rewrite foldl_app, recognized_snoc. simpl.
  case_bool_decide as Hf.
  - rewrite loop_body_recognized by done. simpl.
    rewrite filter_app.
    destruct (decide (name f = key)) as [Hk|Hk].
    + rewrite filter_cons_True, filter_nil, last_snoc by done.
      subst key. by rewrite lookup_insert_eq.
    + rewrite filter_cons_False, filter_nil, app_nil_r by done.
      by rewrite lookup_insert_ne.
  - by rewrite loop_body_ignored.
Qed.

(** A count is stored only together with a voxel volume. *)
Lemma read_files_volume_present (fs : list uploaded_file) (key : string) :
  is_Some ((read_files fs).1 !! key) -> is_Some (read_files fs).2.
Proof.
  unfold read_files. rewrite foldl_loop_data, foldl_loop_volume. simpl.
  destruct (last (recognized fs)) as [f|] eqn:Hlast; [eauto|].
  apply last_None in Hlast. rewrite Hlast. simpl.
  rewrite lookup_empty. by intros [? ?].
Qed.

(** ** Volumes (lines 57-63) *)

Lemma volume_of_value (voxel_data : gmap string N) (vv : Qc) (key : string) :
  volume_of (get voxel_data key) (Some vv) = Ok (volume_value voxel_data vv key).
Proof.
  unfold get, volume_value. destruct (voxel_data !! key) as [c|]; [|done].
  simpl. case_bool_decide as Hc.
  - by apply volume_of_pos.
  - by replace c with 0%N by lia.
Qed.

Lemma volumes_Some (voxel_data : gmap string N) (vv : Qc) :
  volumes voxel_data (Some vv) =
    Ok (Tissues (volume_value voxel_data vv "skeletal_muscle.nii.gz")
                (volume_value voxel_data vv "subcutaneous_fat.nii.gz")
                (volume_value voxel_data vv "torso_fat.nii.gz")).
Proof. unfold volumes. by rewrite !volume_of_value. Qed.

Lemma volumes_empty (voxel_volume : value) :
  volumes ∅ voxel_volume = Ok (Tissues None None None).
Proof. reflexivity. Qed.

Lemma volumes_absent (voxel_data : gmap string N) (voxel_volume : value) :
  (forall r, voxel_data !! role_file r = None) ->
  volumes voxel_data voxel_volume = Ok (Tissues None None None).
Proof.
  intros Habs. unfold volumes, get.
  pose proof (Habs skeletal_muscle) as Hm.
  pose proof (Habs subcutaneous_fat) as Hs.
  pose proof (Habs torso_fat) as Ht.
  simpl in Hm, Hs, Ht. by rewrite Hm, Hs, Ht.
Qed.

Lemma pick_volume_value (voxel_data : gmap string N) (vv : Qc) (r : role) :
  pick r (Tissues (volume_value voxel_data vv "skeletal_muscle.nii.gz")
                  (volume_value voxel_data vv "subcutaneous_fat.nii.gz")
                  (volume_value voxel_data vv "torso_fat.nii.gz"))
  = volume_value voxel_data vv (role_file r).
Proof. by destruct r. Qed.

(** On the state the loop leaves, the volumes are computed without error. *)
Lemma volumes_after_loop (uploaded_files : list uploaded_file) :
  let st := read_files uploaded_files in
  volumes st.1 st.2 =
    Ok (Tissues (loop_volume_value st "skeletal_muscle.nii.gz")
                (loop_volume_value st "subcutaneous_fat.nii.gz")
                (loop_volume_value st "torso_fat.nii.gz")).
Proof.
  intros st. unfold loop_volume_value.
  pose proof (read_files_volume_present uploaded_files) as Hpresent.
  fold st in Hpresent. destruct st as [voxel_data [vv|]]; simpl in *.
  - apply volumes_Some.
  - assert (forall k, voxel_data !! k = None) as Hnone.
    { intros k. destruct (voxel_data !! k) eqn:Hk; [|done].
      destruct (Hpresent k) as [? ?]; [eauto|done]. }
    rewrite !Hnone. apply volumes_absent. intros. apply Hnone.
Qed.

Lemma pick_loop_volume_value (st : loop_state) (r : role) :
  pick r (Tissues (loop_volume_value st "skeletal_muscle.nii.gz")
                  (loop_volume_value st "subcutaneous_fat.nii.gz")
                  (loop_volume_value st "torso_fat.nii.gz"))
  = loop_volume_value st (role_file r).
Proof. by destruct r. Qed.

(** C1.  On every upload and for every tissue role, the volume computed at
    lines 57-63 is [voxel_count * voxel_volume] when the role's file was read
    and its count is positive, and [None] when the file is absent or its
    count is zero; the three volumes are always computed without error. *)
Theorem C1_volume_of_role (uploaded_files : list uploaded_file) (r : role) :
  exists volume,
    volumes (read_files uploaded_files).1 (read_files uploaded_files).2
      = Ok volume /\
    match (read_files uploaded_files).1 !! role_file r with
    | Some voxel_count =>
        if bool_decide (0 < voxel_count)%N then
          exists voxel_volume,
            (read_files uploaded_files).2 = Some voxel_volume /\
            pick r volume = Some (of_int voxel_count * voxel_volume)
        else pick r volume = None
    | None => pick r volume = None
    end.
Proof.
  eexists. split; [apply volumes_after_loop|].
  rewrite pick_loop_volume_value. unfold loop_volume_value.
  pose proof (read_files_volume_present uploaded_files (role_file r)) as Hp.
  destruct (_ !! role_file r) as [c|]; [|done].
  destruct Hp as [vv Hvv]; [eauto|]. rewrite Hvv.
  case_bool_decide; [|done]. by exists vv.
Qed.

(** ** Masses and ratios (lines 70-77) *)

Lemma masses_value (volume : tissues value) :
  masses volume =
    Ok (Tissues (masse_value (muscle volume) masse_vol_muscle)
                (masse_value (graisse_sous_cut volume) masse_vol_graisse)
                (masse_value (graisse_viscerale volume) masse_vol_graisse)).
Proof. unfold masses. by rewrite !masse_of_value. Qed.

Lemma rapport_sous_cut_viscerale_value (volume : tissues value) :
  rapport_sous_cut_viscerale volume =
    div (masse_value (graisse_sous_cut volume) masse_vol_graisse)
        (masse_value (graisse_viscerale volume) masse_vol_graisse).
Proof. unfold rapport_sous_cut_viscerale. by rewrite !masse_of_value. Qed.

Lemma rapport_graisse_muscle_value (volume : tissues value) :
  rapport_graisse_muscle volume =
    (s ← add (masse_value (graisse_sous_cut volume) masse_vol_graisse)
             (masse_value (graisse_viscerale volume) masse_vol_graisse);
     div s (masse_value (muscle volume) masse_vol_muscle)).
Proof. unfold rapport_graisse_muscle. by rewrite !masse_of_value. Qed.

Lemma masse_vol_muscle_neq_0 : masse_vol_muscle <> 0.
Proof. apply Qc_pos_neq_0, masse_vol_muscle_pos. Qed.

Lemma masse_vol_graisse_neq_0 : masse_vol_graisse <> 0.
Proof. apply Qc_pos_neq_0, masse_vol_graisse_pos. Qed.

(** A division whose divisor is a mass never divides by zero. *)
Lemma div_masse_value (x volume : value) (masse_vol : Qc) :
  masse_vol <> 0 ->
  div x (masse_value volume masse_vol) =
    match x, masse_value volume masse_vol with
    | Some a, Some b => Ok (Some (a / b))
    | _, _ => Raise TypeError
    end.
Proof.
  intros Hd. destruct x as [a|]; [|done].
  destruct (masse_value volume masse_vol) as [b|] eqn:Hb; [|done].
  simpl. by rewrite (bool_decide_eq_false_2 _ (masse_value_neq_0 _ _ _ Hd Hb)).
Qed.

(** A ratio raises nothing but a [TypeError]: its divisor is a mass. *)
Lemma rapport_sous_cut_viscerale_raise (volume : tissues value) (e : exn) :
  rapport_sous_cut_viscerale volume = Raise e -> e = TypeError.
Proof.
  rewrite rapport_sous_cut_viscerale_value.
  rewrite (div_masse_value _ _ _ masse_vol_graisse_neq_0).
  destruct (masse_value (graisse_sous_cut volume) _); [|congruence].
  destruct (masse_value (graisse_viscerale volume) _); congruence.
Qed.

Lemma rapport_graisse_muscle_raise (volume : tissues value) (e : exn) :
  rapport_graisse_muscle volume = Raise e -> e = TypeError.
Proof.
  rewrite rapport_graisse_muscle_value.
  destruct (masse_value (graisse_sous_cut volume) _); [|simpl; congruence].
  destruct (masse_value (graisse_viscerale volume) _); [|simpl; congruence].
  destruct (masse_value (muscle volume) _) as [mm|] eqn:Hmm;
    simpl; [|congruence].
  pose proof (masse_value_neq_0 _ _ _ masse_vol_muscle_neq_0 Hmm) as Hm0.
  rewrite (bool_decide_eq_false_2 _ Hm0). congruence.
Qed.

(** The rows, when the three masses are numbers. *)
Lemma rows_Some (volume : tissues value) (m_muscle m_sous_cut m_viscerale : Qc) :
  masses volume =
    Ok (Tissues (Some m_muscle) (Some m_sous_cut) (Some m_viscerale)) ->
  rows volume =
    Ok [ ("Volume Muscle (cm³)", muscle volume);
         ("Volume Graisse Sous-cutanée (cm³)", graisse_sous_cut volume);
         ("Volume Graisse Viscerale (cm³)", graisse_viscerale volume);
         ("Masse Muscle (kg)", Some m_muscle);
         ("Masse Graisse Sous-cutanée (kg)", Some m_sous_cut);
         ("Masse Graisse Viscerale (kg)", Some m_viscerale);
         ("Rapport Graisse Sous-cutanée / Viscerale",
          Some (m_sous_cut / m_viscerale));
         ("Rapport Graisse / Muscle",
          Some ((m_sous_cut + m_viscerale) / m_muscle)) ].
Proof.
  intros Hm. unfold rows. rewrite Hm. simpl.
  rewrite masses_value in Hm. injection Hm as Hmm Hms Hmv.
  pose proof (masse_value_neq_0 _ _ _ masse_vol_graisse_neq_0 Hmv) as Hv0.
  pose proof (masse_value_neq_0 _ _ _ masse_vol_muscle_neq_0 Hmm) as Hm0.
  rewrite rapport_sous_cut_viscerale_value, rapport_graisse_muscle_value.
  rewrite Hms, Hmv, Hmm. simpl.
  by rewrite (bool_decide_eq_false_2 _ Hv0), (bool_decide_eq_false_2 _ Hm0).
Qed.

(** The rows, when a mass is [None]: a [TypeError], whichever mass it is. *)
Lemma rows_None (volume : tissues value) (r : role) :
  pick r (Tissues (masse_value (muscle volume) masse_vol_muscle)
                  (masse_value (graisse_sous_cut volume) masse_vol_graisse)
                  (masse_value (graisse_viscerale volume) masse_vol_graisse))
    = None ->
  rows volume = Raise TypeError.
Proof.
  intros Hr. unfold rows. rewrite masses_value. simpl.
  rewrite rapport_sous_cut_viscerale_value, rapport_graisse_muscle_value.
  rewrite (div_masse_value _ _ _ masse_vol_graisse_neq_0).
  destruct (masse_value (graisse_sous_cut volume) _) as [ms|] eqn:Hms;
    [|done].
  destruct (masse_value (graisse_viscerale volume) _) as [mv|] eqn:Hmv;
    [|done].
  destruct (masse_value (muscle volume) _) as [mm|] eqn:Hmm; [|done].
  by destruct r.
Qed.

(** The volume stage raises nothing but a [TypeError]. *)
Lemma volumes_raise (voxel_data : gmap string N) (voxel_volume : value) (e : exn) :
  volumes voxel_data voxel_volume = Raise e -> e = TypeError.
Proof.
  destruct voxel_volume as [vv|]; [by rewrite volumes_Some|].
  unfold volumes, volume_of, mul.
  repeat (destruct (truthy_int _); simpl; try congruence).
Qed.

Lemma rows_raise (volume : tissues value) (e : exn) :
  rows volume = Raise e -> e = TypeError.
Proof.
  unfold rows. rewrite masses_value, bind_Ok.
  destruct (rapport_sous_cut_viscerale volume) as [r1|e1] eqn:H1.
  - rewrite bind_Ok.
    destruct (rapport_graisse_muscle volume) as [r2|e2] eqn:H2; [done|].
    rewrite bind_Raise. intros [= <-].
    by apply (rapport_graisse_muscle_raise volume).
  - rewrite bind_Raise. intros [= <-].
    by apply (rapport_sous_cut_viscerale_raise volume).
Qed.

Lemma metrics_raise (voxel_data : gmap string N) (voxel_volume : value) (e : exn) :
  metrics voxel_data voxel_volume = Raise e -> e = TypeError.
Proof.
  unfold metrics.
  destruct (volumes voxel_data voxel_volume) as [volume|e'] eqn:Hv.
  - rewrite bind_Ok. apply rows_raise.
  - rewrite bind_Raise. intros [= <-]. by apply (volumes_raise _ _ _ Hv).
Qed.

(** C2 (as amended).  For every tissue role, the mass computed at lines
    70-72 is [volume * density / 1000] when the volume is a number other
    than zero, and [None] when the volume is [None] or zero; the density is
    1.06 for muscle and 0.9196 for both fats. *)
Theorem C2_masse_of_role (volume : tissues value) (r : role) :
  exists masse,
    masses volume = Ok masse /\
    pick r masse =
      match pick r volume with
      | Some v =>
          if bool_decide (v = 0) then None
          else Some (v * match r with
                         | skeletal_muscle => Q2Qc 1.06
                         | subcutaneous_fat | torso_fat => Q2Qc 0.9196
                         end / Q2Qc 1000)
      | None => None
      end.
Proof.
  eexists. split; [apply masses_value|]. by destruct r.
Qed.

(** C2, counterexample.  With one positive voxel per mask and a zero
    spacing, every volume is the number 0, not [None], and every mass is
    [None], not [0 * density / 1000]. *)
Lemma C2_zero_volume_has_no_mass :
  volumes (read_files zero_spacing_upload).1
          (read_files zero_spacing_upload).2
    = Ok (Tissues (Some 0) (Some 0) (Some 0)) /\
  masses (Tissues (Some 0) (Some 0) (Some 0))
    = Ok (Tissues None None None) /\
  (None : value) <> Some (0 * masse_vol_muscle / Q2Qc 1000).
Proof. split; [qc_eval|]. split; [reflexivity|discriminate]. Qed.

(** C3.  When the three masses are numbers, the rows hold
    [subcutaneous / visceral] and [(subcutaneous + visceral) / muscle] as
    the two ratios; on the fixture of the specification the eight values are
    1000, 500, 200, 1.06, 0.4598, 0.18392, 2.5 and 16093/26500, which is
    0.6073 to four decimal places. *)
Theorem C3_ratios :
  (forall (volume : tissues value) (m_muscle m_sous_cut m_viscerale : Qc),
     masses volume =
       Ok (Tissues (Some m_muscle) (Some m_sous_cut) (Some m_viscerale)) ->
     rapport_sous_cut_viscerale volume = Ok (Some (m_sous_cut / m_viscerale)) /\
     rapport_graisse_muscle volume =
       Ok (Some ((m_sous_cut + m_viscerale) / m_muscle)) /\
     rows volume =
       Ok [ ("Volume Muscle (cm³)", muscle volume);
            ("Volume Graisse Sous-cutanée (cm³)", graisse_sous_cut volume);
            ("Volume Graisse Viscerale (cm³)", graisse_viscerale volume);
            ("Masse Muscle (kg)", Some m_muscle);
            ("Masse Graisse Sous-cutanée (kg)", Some m_sous_cut);
            ("Masse Graisse Viscerale (kg)", Some m_viscerale);
            ("Rapport Graisse Sous-cutanée / Viscerale",
             Some (m_sous_cut / m_viscerale));
            ("Rapport Graisse / Muscle",
             Some ((m_sous_cut + m_viscerale) / m_muscle)) ]) /\
  metrics fixture (Some (Q2Qc 0.001)) =
    Ok [ ("Volume Muscle (cm³)", Some (Q2Qc 1000));
         ("Volume Graisse Sous-cutanée (cm³)", Some (Q2Qc 500));
         ("Volume Graisse Viscerale (cm³)", Some (Q2Qc 200));
         ("Masse Muscle (kg)", Some (Q2Qc 1.06));
         ("Masse Graisse Sous-cutanée (kg)", Some (Q2Qc 0.4598));
         ("Masse Graisse Viscerale (kg)", Some (Q2Qc 0.18392));
         ("Rapport Graisse Sous-cutanée / Viscerale", Some (Q2Qc 2.5));
         ("Rapport Graisse / Muscle", Some (Q2Qc (16093 # 26500))) ] /\
  Q2Qc 0.60725 ≤ Q2Qc (16093 # 26500) < Q2Qc 0.60735.
Proof.
  split; [|split; [qc_eval|split; by vm_compute]].
  intros volume mm ms mv Hm.
  pose proof (rows_Some _ _ _ _ Hm) as Hrows.
  rewrite masses_value in Hm. injection Hm as Hmm Hms Hmv.
  pose proof (masse_value_neq_0 _ _ _ masse_vol_graisse_neq_0 Hmv) as Hv0.
  pose proof (masse_value_neq_0 _ _ _ masse_vol_muscle_neq_0 Hmm) as Hm0.
  rewrite rapport_sous_cut_viscerale_value, rapport_graisse_muscle_value.
  rewrite Hms, Hmv, Hmm. simpl.
  rewrite (bool_decide_eq_false_2 _ Hv0), (bool_decide_eq_false_2 _ Hm0).
  done.
Qed.

(** C3, on the fixture: the masses are numbers there, and the ratios of the
    general statement are 2.5 and 16093/26500. *)
Lemma C3_ratios_fixture :
  let volume := Tissues (Some (Q2Qc 1000)) (Some (Q2Qc 500)) (Some (Q2Qc 200)) in
  masses volume =
    Ok (Tissues (Some (Q2Qc 1.06)) (Some (Q2Qc 0.4598)) (Some (Q2Qc 0.18392))) /\
  rapport_sous_cut_viscerale volume
    = Ok (Some (Q2Qc 0.4598 / Q2Qc 0.18392)) /\
  rapport_graisse_muscle volume
    = Ok (Some ((Q2Qc 0.4598 + Q2Qc 0.18392) / Q2Qc 1.06)).
Proof.
  assert (masses (Tissues (Some (Q2Qc 1000)) (Some (Q2Qc 500)) (Some (Q2Qc 200)))
          = Ok (Tissues (Some (Q2Qc 1.06)) (Some (Q2Qc 0.4598))
                        (Some (Q2Qc 0.18392)))) as Hm by qc_eval.
  split; [exact Hm|].
  destruct (proj1 C3_ratios _ _ _ _ Hm) as (H1 & H2 & _).
  split; [exact H1|exact H2].
Defined.

(** C4, on an upload that passes the gate.  The torso-fat mask has no
    positive voxel: its volume and mass are [None], the first ratio divides
    by [None], and no list of rows is returned. *)
Theorem C4_empty_mask_raises :
  main empty_mask_upload = Results (Raise TypeError) /\
  analyze_voxel_data empty_mask_upload = Raise TypeError /\
  volumes (read_files empty_mask_upload).1 (read_files empty_mask_upload).2
    = Ok (Tissues (Some (Q2Qc 0.002)) (Some (Q2Qc 0.001)) None) /\
  masses (Tissues (Some (Q2Qc 0.002)) (Some (Q2Qc 0.001)) None)
    = Ok (Tissues (Some (Q2Qc 0.00000212)) (Some (Q2Qc 0.0000009196)) None).
Proof. repeat split; qc_eval. Qed.

(** C5.  When a mass is [None], in particular the mass that divides a
    ratio (the visceral mass, or the muscle mass), as it is when the role's
    file is absent or its count is zero, the computation raises a
    [TypeError] and returns no rows. *)
Theorem C5_None_denominator_raises
    (voxel_data : gmap string N) (voxel_volume : value) (r : role) :
  get voxel_data (role_file r) = 0%N \/
  (exists volume,
     volumes voxel_data voxel_volume = Ok volume /\
     masse_of (pick r volume)
              match r with
              | skeletal_muscle => masse_vol_muscle
              | subcutaneous_fat | torso_fat => masse_vol_graisse
              end = Ok None) ->
  metrics voxel_data voxel_volume = Raise TypeError.
Proof.
  intros Hr. unfold metrics.
  destruct (volumes voxel_data voxel_volume) as [volume|e] eqn:Hvol.
  - simpl. apply (rows_None volume r).
    assert (masse_of (pick r volume)
              match r with
              | skeletal_muscle => masse_vol_muscle
              | subcutaneous_fat | torso_fat => masse_vol_graisse
              end = Ok None) as Hm.
    { destruct Hr as [Hc|(volume' & [= <-] & Hm)]; [|done].
      assert (pick r volume = None) as ->; [|by destruct r].
      revert Hvol. unfold volumes.
      destruct r; simpl in Hc; rewrite Hc, volume_of_0; simpl;
        repeat (destruct (volume_of _ _); simpl; try discriminate);
        by intros [= <-]. }
    rewrite masse_of_value in Hm. injection Hm as Hm.
    by destruct r.
  - simpl. by rewrite (volumes_raise _ _ _ Hvol).
Qed.

(** C5, on an upload state without the torso-fat file, and on the state of
    [empty_mask_upload], where its count is zero. *)
Lemma C5_None_denominator_raises_witness :
  metrics {[ "skeletal_muscle.nii.gz" := 5%N;
             "subcutaneous_fat.nii.gz" := 3%N ]} (Some 1)
    = Raise TypeError /\
  metrics (read_files empty_mask_upload).1 (read_files empty_mask_upload).2
    = Raise TypeError.
Proof.
  split.
  - apply (C5_None_denominator_raises _ _ torso_fat). left. reflexivity.
  - apply (C5_None_denominator_raises _ _ torso_fat). left. reflexivity.
Defined.

(** C6 (as amended).  With a zero voxel volume, every role with a positive
    count has the volume 0, which is a number and not [None], and every mass
    is [None], because the mass is guarded by the truthiness of the volume;
    the computation then raises a [TypeError], and no ratio is a
    division by zero. *)
Theorem C6_zero_volume_raises_TypeError (voxel_data : gmap string N) :
  (exists volume,
     volumes voxel_data (Some 0) = Ok volume /\
     (forall r, pick r volume =
                if bool_decide (0 < get voxel_data (role_file r))%N
                then Some 0 else None) /\
     masses volume = Ok (Tissues None None None) /\
     rapport_sous_cut_viscerale volume = Raise TypeError /\
     rapport_graisse_muscle volume = Raise TypeError) /\
  metrics voxel_data (Some 0) = Raise TypeError.
Proof.
  assert (forall key, volume_value voxel_data 0 key =
                      if bool_decide (0 < get voxel_data key)%N
                      then Some 0 else None) as Hvol.
  { intros key. unfold volume_value, get.
    destruct (voxel_data !! key) as [c|]; [|done]. simpl.
    case_bool_decide; [|done]. by rewrite Qcmult_0_r. }
  assert (forall key masse_vol,
            masse_of (volume_value voxel_data 0 key) masse_vol = Ok None)
    as Hmasse.
  { intros key masse_vol. rewrite Hvol. by case_bool_decide. }
  assert (rows (Tissues (volume_value voxel_data 0 "skeletal_muscle.nii.gz")
                  (volume_value voxel_data 0 "subcutaneous_fat.nii.gz")
                  (volume_value voxel_data 0 "torso_fat.nii.gz"))
          = Raise TypeError) as Hrows.
  { unfold rows, masses, rapport_sous_cut_viscerale. simpl.
    by rewrite !Hmasse. }
  split.
  - eexists. split; [apply volumes_Some|]. split; [|split; [|split]].
    + intros r. rewrite pick_volume_value. apply Hvol.
    + unfold masses. simpl. by rewrite !Hmasse.
    + unfold rapport_sous_cut_viscerale. simpl. by rewrite !Hmasse.
    + unfold rapport_graisse_muscle. simpl. by rewrite !Hmasse.
  - unfold metrics. rewrite volumes_Some, bind_Ok. exact Hrows.
Qed.

(** C6, counterexample.  No input with a zero voxel volume has a dividing
    mass that is present and equal to zero, or a ratio that divides by
    zero: the masses are [None]. *)
Lemma C6_zero_voxel_volume_no_zero_mass :
  ~ exists (voxel_data : gmap string N) (volume : tissues value),
      volumes voxel_data (Some 0) = Ok volume /\
      (masse_of (graisse_viscerale volume) masse_vol_graisse = Ok (Some 0) \/
       masse_of (muscle volume) masse_vol_muscle = Ok (Some 0) \/
       rapport_sous_cut_viscerale volume = Raise ZeroDivisionError \/
       rapport_graisse_muscle volume = Raise ZeroDivisionError).
Proof.
  intros (voxel_data & volume & Hvol & H).
  rewrite volumes_Some in Hvol. injection Hvol as <-.
  assert (forall key masse_vol,
            masse_of (volume_value voxel_data 0 key) masse_vol = Ok None)
    as Hmasse.
  { intros key masse_vol. unfold volume_value.
    destruct (voxel_data !! key) as [c|]; [|done].
    case_bool_decide; [|done]. by rewrite Qcmult_0_r. }
  unfold rapport_sous_cut_viscerale, rapport_graisse_muscle in H.
  simpl in H. rewrite !Hmasse in H.
  by destruct H as [H|[H|[H|H]]].
Qed.

(** The same scenario over binary64: one positive voxel per mask and a
    voxel volume of [0.0]. *)
Example binary64_zero_voxel_volume :
  B64.volumes small_counts (Some PrimFloat.zero)
    = Ok (Tissues (Some PrimFloat.zero) (Some PrimFloat.zero)
                  (Some PrimFloat.zero)) /\
  B64.masses (Tissues (Some PrimFloat.zero) (Some PrimFloat.zero)
                      (Some PrimFloat.zero))
    = Ok (Tissues None None None) /\
  B64.metrics small_counts (Some PrimFloat.zero) = Raise TypeError.
Proof. repeat split; vm_compute; reflexivity. Qed.

(** ** The upload gate *)

Lemma filter_nil_iff {A : Type} (P : A -> Prop) `{forall x, Decision (P x)}
    (l : list A) :
  filter P l = [] <-> forall x, x ∈ l -> ~ P x.
Proof.
  split.
  - intros Hnil x Hx HP. by apply (filter_nil_not_elem_of P l x).
  - intros Hl. apply elem_of_nil_inv. intros x [HP Hx]%list_elem_of_filter.
    by apply (Hl x).
Qed.

Lemma names_match_filters (uploaded_files : list uploaded_file) :
  names_match uploaded_files <->
  filter (fun f => f ∉ name <$> uploaded_files) file_names = [] /\
  filter (fun f => f ∉ file_names) (name <$> uploaded_files) = [].
Proof.
  rewrite !filter_nil_iff. unfold names_match. split.
  - intros Hm. split; intros f Hf Hnot; apply Hnot; by apply Hm.
  - intros [Hmiss Hextra] f. split; intros Hf.
    + destruct (decide (f ∈ file_names)) as [|Hn]; [done|].
      by destruct (Hextra f Hf).
    + destruct (decide (f ∈ name <$> uploaded_files)) as [|Hn]; [done|].
      by destruct (Hmiss f Hf).
Qed.

Lemma file_names_NoDup : NoDup file_names.
Proof. compute_done. Qed.

Lemma names_match_three (uploaded_files : list uploaded_file) :
  names_match uploaded_files /\ length uploaded_files = 3%nat <->
  name <$> uploaded_files ≡ₚ file_names.
Proof.
  split.
  - intros [Hm Hlen]. symmetry. apply submseteq_length_Permutation.
    + apply NoDup_submseteq; [apply file_names_NoDup|]. intros f. apply Hm.
    + rewrite length_fmap, Hlen. reflexivity.
  - intros Hp. split.
    + intros f. by rewrite Hp.
    + apply Permutation_length in Hp. by rewrite length_fmap in Hp.
Qed.

(** The three branches of the page, for a non-empty upload. *)
Lemma main_nonempty (uploaded_files : list uploaded_file) :
  uploaded_files <> [] ->
  main uploaded_files =
    if bool_decide (missing_files_of uploaded_files <> [] \/
                    extra_files_of uploaded_files <> []) then
      Error (missing_files_of uploaded_files) (extra_files_of uploaded_files)
    else if bool_decide (length uploaded_files = 3%nat) then
      Results (analyze_voxel_data uploaded_files)
    else Warning.
Proof. by destruct uploaded_files. Qed.

Lemma names_match_lists (uploaded_files : list uploaded_file) :
  names_match uploaded_files <->
  ~ (missing_files_of uploaded_files <> [] \/
     extra_files_of uploaded_files <> []).
Proof.
  rewrite names_match_filters.
  fold (missing_files_of uploaded_files) (extra_files_of uploaded_files).
  split.
  - intros [-> ->] [H|H]; by apply H.
  - intros H. split.
    + destruct (missing_files_of _); [done|]. destruct H. by left.
    + destruct (extra_files_of _); [done|]. destruct H. by right.
Qed.

(** C7.  For a non-empty upload: when the names are not exactly the three
    expected names, the page shows the error with the list of missing names
    and the list of unexpected names, and the analysis is not run; when the
    names match and the number of files is not 3, it shows the warning; and
    the analysis is run exactly when the uploaded names are the three
    expected names, each once. *)
Theorem C7_gate (uploaded_files : list uploaded_file) :
  uploaded_files <> [] ->
  (~ names_match uploaded_files ->
   exists missing extra,
     main uploaded_files = Error missing extra /\
     (forall f, f ∈ missing <->
                f ∈ file_names /\ f ∉ name <$> uploaded_files) /\
     (forall f, f ∈ extra <->
                f ∈ name <$> uploaded_files /\ f ∉ file_names)) /\
  (names_match uploaded_files -> length uploaded_files <> 3%nat ->
   main uploaded_files = Warning) /\
  (forall df, main uploaded_files = Results df ->
              name <$> uploaded_files ≡ₚ file_names /\
              df = analyze_voxel_data uploaded_files) /\
  (name <$> uploaded_files ≡ₚ file_names ->
   main uploaded_files = Results (analyze_voxel_data uploaded_files)).
Proof.
  intros Hne. rewrite (main_nonempty _ Hne). split; [|split; [|split]].
  - intros Hno. rewrite names_match_lists in Hno.
    rewrite bool_decide_eq_true_2 by (by apply dec_stable).
    exists (missing_files_of uploaded_files), (extra_files_of uploaded_files).
    split; [reflexivity|].
    split; intros f; unfold missing_files_of, extra_files_of;
      rewrite list_elem_of_filter; tauto.
  - intros Hm%names_match_lists Hlen.
    by rewrite (bool_decide_eq_false_2 _ Hm), (bool_decide_eq_false_2 _ Hlen).
  - intros df. case_bool_decide as Hm; [done|].
    case_bool_decide as Hlen; [|done]. intros [= <-].
    split; [|done]. apply names_match_three.
    split; [by apply names_match_lists|done].
  - intros [Hm%names_match_lists Hlen]%names_match_three.
    by rewrite (bool_decide_eq_false_2 _ Hm), (bool_decide_eq_true_2 _ Hlen).
Qed.

(** C7, on two uploads: three files under the expected names, and three
    files of which one is misnamed. *)
Lemma C7_gate_witness :
  main empty_mask_upload = Results (analyze_voxel_data empty_mask_upload) /\
  exists missing extra,
    main misnamed_upload = Error missing extra /\
    ("skeletal_muscle.nii.gz" ∈ missing <->
     "skeletal_muscle.nii.gz" ∈ file_names /\
     "skeletal_muscle.nii.gz" ∉ name <$> misnamed_upload) /\
    ("muscle.nii.gz" ∈ extra <->
     "muscle.nii.gz" ∈ name <$> misnamed_upload /\
     "muscle.nii.gz" ∉ file_names).
Proof.
  split.
  - assert (empty_mask_upload <> []) as Hne by discriminate.
    apply (proj2 (proj2 (proj2 (C7_gate empty_mask_upload Hne)))).
    reflexivity.
  - assert (misnamed_upload <> []) as Hne by discriminate.
    assert (~ names_match misnamed_upload) as Hno.
    { intros Hm. pose proof (proj1 (Hm "muscle.nii.gz")) as Hin.
      assert ("muscle.nii.gz" ∉ file_names) as Hout by compute_done.
      apply Hout, Hin. compute_done. }
    destruct (proj1 (C7_gate misnamed_upload Hne) Hno)
      as (missing & extra & Hmain & Hmiss & Hextra).
    exists missing, extra.
    split; [exact Hmain|]. split; [apply Hmiss|apply Hextra].
Defined.

(** ** The voxel volume that is kept *)

(** C8.  After the loop, [voxel_volume] is the value read from the last
    recognised file (and [None] when there is none); whatever the files say,
    the three volumes are computed without error, each from that one
    value. *)
Theorem C8_last_voxel_volume (uploaded_files : list uploaded_file) :
  (read_files uploaded_files).2
    = voxel_volume_of <$> last (recognized uploaded_files) /\
  exists volume,
    volumes (read_files uploaded_files).1 (read_files uploaded_files).2
      = Ok volume /\
    forall r,
      pick r volume =
        match (read_files uploaded_files).1 !! role_file r,
              last (recognized uploaded_files) with
        | Some voxel_count, Some f =>
            if bool_decide (0 < voxel_count)%N
            then Some (of_int voxel_count * voxel_volume_of f)
            else None
        | _, _ => None
        end.
Proof.
  assert ((read_files uploaded_files).2
          = voxel_volume_of <$> last (recognized uploaded_files)) as Hvv.
  { unfold read_files. rewrite foldl_loop_volume.
    by destruct (last (recognized uploaded_files)). }
  split; [exact Hvv|].
  eexists. split; [apply volumes_after_loop|]. intros r.
  rewrite pick_loop_volume_value. unfold loop_volume_value. rewrite Hvv.
  destruct (_ !! role_file r) as [c|]; [|done].
  by destruct (last (recognized uploaded_files)).
Qed.

(** Three files whose voxel volumes are 0.001, 0.008 and 0.003: every
    volume is computed with 0.003, the value of the file read last. *)
Example disagreeing_upload_volumes :
  volumes (read_files disagreeing_upload).1 (read_files disagreeing_upload).2
  = Ok (Tissues (Some (Q2Qc 0.006)) (Some (Q2Qc 0.003)) (Some (Q2Qc 0.009))).
Proof. qc_eval. Qed.

(** ** What is read from one file *)

Lemma ndarray_sum_filter {A : Type} (P : A -> Prop) `{forall x, Decision (P x)}
    (l : list A) :
  ndarray_sum ((fun x => bool_decide (P x)) <$> l)
  = N.of_nat (length (filter P l)).
Proof.
  induction l as [|x l IH]; [done|].
  rewrite fmap_cons, filter_cons. simpl. rewrite IH.
  destruct (decide (P x)) as [HP|HP].
  - rewrite (bool_decide_eq_true_2 _ HP). cbn [length N.b2n]. lia.
  - rewrite (bool_decide_eq_false_2 _ HP). cbn [N.b2n]. lia.
Qed.




(** ** Success on positive inputs *)

Section PositiveInputs.

Variable voxel_data : gmap string N.
Variables c_muscle c_sous_cut c_viscerale : N.
Variable vv : Qc.

Hypothesis muscle_read :
  voxel_data !! "skeletal_muscle.nii.gz" = Some c_muscle.
Hypothesis sous_cut_read :
  voxel_data !! "subcutaneous_fat.nii.gz" = Some c_sous_cut.
Hypothesis viscerale_read :
  voxel_data !! "torso_fat.nii.gz" = Some c_viscerale.
Hypothesis muscle_pos : (0 < c_muscle)%N.
Hypothesis sous_cut_pos : (0 < c_sous_cut)%N.
Hypothesis viscerale_pos : (0 < c_viscerale)%N.
Hypothesis vv_pos : 0 < vv.

Lemma volume_neq_0 (c : N) : (0 < c)%N -> of_int c * vv <> 0.
Proof using vv_pos.
  intros Hc. apply Qcmult_neq_0; apply Qc_pos_neq_0; [|done].
  by apply of_int_pos.
Qed.

Lemma masse_value_pos (c : N) (masse_vol : Qc) :
  (0 < c)%N ->
  masse_value (Some (of_int c * vv)) masse_vol
  = Some (of_int c * vv * masse_vol / Q2Qc 1000).
Proof using vv_pos.
  intros Hc. simpl. by rewrite (bool_decide_eq_false_2 _ (volume_neq_0 c Hc)).
Qed.

(** C10 (as amended).  When the three files were read with positive counts
    and the voxel volume is positive, no operator is applied to [None]: the
    computation returns the eight rows, and every volume, mass and ratio is
    a number.  Whether a divisor is zero is left out: it is a matter of
    underflow, which the exact embedding does not have. *)
Theorem C10_positive_inputs_succeed :
  let volume_muscle := of_int c_muscle * vv in
  let volume_sous_cut := of_int c_sous_cut * vv in
  let volume_viscerale := of_int c_viscerale * vv in
  let masse_muscle := volume_muscle * masse_vol_muscle / Q2Qc 1000 in
  let masse_sous_cut := volume_sous_cut * masse_vol_graisse / Q2Qc 1000 in
  let masse_viscerale := volume_viscerale * masse_vol_graisse / Q2Qc 1000 in
  volumes voxel_data (Some vv) =
    Ok (Tissues (Some volume_muscle) (Some volume_sous_cut)
                (Some volume_viscerale)) /\
  masses (Tissues (Some volume_muscle) (Some volume_sous_cut)
                  (Some volume_viscerale)) =
    Ok (Tissues (Some masse_muscle) (Some masse_sous_cut)
                (Some masse_viscerale)) /\
  metrics voxel_data (Some vv) =
    Ok [ ("Volume Muscle (cm³)", Some volume_muscle);
         ("Volume Graisse Sous-cutanée (cm³)", Some volume_sous_cut);
         ("Volume Graisse Viscerale (cm³)", Some volume_viscerale);
         ("Masse Muscle (kg)", Some masse_muscle);
         ("Masse Graisse Sous-cutanée (kg)", Some masse_sous_cut);
         ("Masse Graisse Viscerale (kg)", Some masse_viscerale);
         ("Rapport Graisse Sous-cutanée / Viscerale",
          Some (masse_sous_cut / masse_viscerale));
         ("Rapport Graisse / Muscle",
          Some ((masse_sous_cut + masse_viscerale) / masse_muscle)) ].
Proof using All.
  intros.
  subst masse_muscle masse_sous_cut masse_viscerale.
  subst volume_muscle volume_sous_cut volume_viscerale.
  assert (volumes voxel_data (Some vv) =
            Ok (Tissues (Some (of_int c_muscle * vv))
                        (Some (of_int c_sous_cut * vv))
                        (Some (of_int c_viscerale * vv)))) as Hvol.
  { rewrite volumes_Some. unfold volume_value.
    rewrite muscle_read, sous_cut_read, viscerale_read.
    by rewrite !bool_decide_eq_true_2 by done. }
  assert (masses (Tissues (Some (of_int c_muscle * vv))
                          (Some (of_int c_sous_cut * vv))
                          (Some (of_int c_viscerale * vv))) =
            Ok (Tissues
                  (Some (of_int c_muscle * vv * masse_vol_muscle / Q2Qc 1000))
                  (Some (of_int c_sous_cut * vv * masse_vol_graisse
                         / Q2Qc 1000))
                  (Some (of_int c_viscerale * vv * masse_vol_graisse
                         / Q2Qc 1000)))) as Hmasses.
  { rewrite masses_value.
    cbn [muscle graisse_sous_cut graisse_viscerale].
    by rewrite !masse_value_pos. }
  repeat split; [exact Hvol|exact Hmasses|].
  unfold metrics. rewrite Hvol, bind_Ok. by apply rows_Some.
Qed.

End PositiveInputs.

(** C10, on the fixture of the specification. *)
Lemma C10_positive_inputs_succeed_witness :
  exists result,
    metrics fixture (Some (Q2Qc 0.001)) = Ok result /\
    length result = 8%nat /\
    Forall (fun row => is_Some row.2) result.
Proof.
  destruct (C10_positive_inputs_succeed fixture 1000000 500000 200000
              (Q2Qc 0.001))
    as (_ & _ & Hresult);
    [reflexivity|reflexivity|reflexivity|lia|lia|lia|reflexivity|].
  eexists. split; [exact Hresult|]. split; [reflexivity|].
  repeat constructor; eauto.
Defined.

(** C10, counterexample.  Over binary64, with 3, 2 and 1 positive voxels
    and the strictly positive voxel volume 2^-1073, the three volumes are
    numbers other than zero, the three masses underflow to [0.0], and the
    rows are returned with both ratios dividing by zero: each is a NaN. *)
Lemma C10_subnormal_volume_zero_divisors :
  PrimFloat.ltb PrimFloat.zero B64.subnormal_volume = true /\
  (exists volume,
     B64.volumes small_counts (Some B64.subnormal_volume) = Ok volume /\
     B64.truthy (muscle volume) = true /\
     B64.truthy (graisse_sous_cut volume) = true /\
     B64.truthy (graisse_viscerale volume) = true /\
     B64.masses volume
       = Ok (Tissues (Some PrimFloat.zero) (Some PrimFloat.zero)
                     (Some PrimFloat.zero)) /\
     B64.rapport_sous_cut_viscerale volume = Ok (Some PrimFloat.nan) /\
     B64.rapport_graisse_muscle volume = Ok (Some PrimFloat.nan)) /\
  (exists v1 v2 v3,
     B64.metrics small_counts (Some B64.subnormal_volume) =
       Ok [ ("Volume Muscle (cm³)", Some v1);
            ("Volume Graisse Sous-cutanée (cm³)", Some v2);
            ("Volume Graisse Viscerale (cm³)", Some v3);
            ("Masse Muscle (kg)", Some PrimFloat.zero);
            ("Masse Graisse Sous-cutanée (kg)", Some PrimFloat.zero);
            ("Masse Graisse Viscerale (kg)", Some PrimFloat.zero);
            ("Rapport Graisse Sous-cutanée / Viscerale", Some PrimFloat.nan);
            ("Rapport Graisse / Muscle", Some PrimFloat.nan) ]).
Proof.
  split; [vm_compute; reflexivity|]. split.
  - eexists. split; [vm_compute; reflexivity|].
    repeat split; vm_compute; reflexivity.
  - eexists _, _, _. vm_compute. reflexivity.
Qed.

(** Over binary64 the fixture of the specification gives the nearest
    [float64] of each of its decimal values. *)
Example binary64_fixture :
  B64.metrics fixture (Some B64.fixture_volume) = Ok B64.fixture_rows.
Proof. vm_compute. reflexivity. Qed.

(** * Further properties *)

(** ** Files the loop does not recognise *)

Lemma foldl_loop_recognized (fs : list uploaded_file) (st : loop_state) :
  foldl loop_body st (recognized fs) = foldl loop_body st fs.
Proof.
  revert st. induction fs as [|f fs IH]; intros st; [done|].
  unfold recognized. rewrite filter_cons. fold (recognized fs).
  destruct (decide (name f ∈ file_names)) as [Hf|Hf]; simpl.
  - apply IH.
  - rewrite (loop_body_ignored _ _ Hf). apply IH.
Qed.

(** X1.  Files uploaded under a name other than the three expected names
    have no effect on the result: the analysis of an upload is the analysis
    of its recognised files. *)
Theorem unrecognized_files_ignored (uploaded_files : list uploaded_file) :
  analyze_voxel_data uploaded_files
  = analyze_voxel_data (recognized uploaded_files).
Proof.
  unfold analyze_voxel_data, read_files. by rewrite foldl_loop_recognized.
Qed.

(** ** The dictionary of counts *)

(** X2.  After the loop, a name is a key of [voxel_data] only if it is one
    of the three expected names, and its value is the count of the last
    file uploaded under that name: a later file overwrites an earlier
    one. *)
Theorem voxel_data_last_count (uploaded_files : list uploaded_file)
    (key : string) :
  (read_files uploaded_files).1 !! key
    = voxel_count_of
        <$> last (filter (fun f => name f = key) (recognized uploaded_files))
  /\ (key ∉ file_names -> (read_files uploaded_files).1 !! key = None).
Proof.
  assert ((read_files uploaded_files).1 !! key
          = voxel_count_of
              <$> last (filter (fun f => name f = key)
                               (recognized uploaded_files))) as Hkey.
  { unfold read_files. rewrite foldl_loop_data. simpl.
    destruct (last _); [done|]. apply lookup_empty. }
  split; [exact Hkey|]. intros Hout. rewrite Hkey.
  destruct (last _) as [f|] eqn:Hlast; [|done]. exfalso.
  apply last_Some_elem_of in Hlast.
  apply list_elem_of_filter in Hlast as [<- Hf].
  apply list_elem_of_filter in Hf as [Hf _]. by apply Hout.
Qed.

(** ** When the metrics are returned *)

Lemma volume_value_pos (voxel_data : gmap string N) (vv : Qc) (key : string) :
  (0 < get voxel_data key)%N ->
  volume_value voxel_data vv key = Some (of_int (get voxel_data key) * vv).
Proof.
  unfold volume_value, get. destruct (voxel_data !! key) as [c|]; simpl.
  - intros Hc. by rewrite (bool_decide_eq_true_2 _ Hc).
  - lia.
Qed.

Lemma volume_value_0 (voxel_data : gmap string N) (vv : Qc) (key : string) :
  get voxel_data key = 0%N -> volume_value voxel_data vv key = None.
Proof.
  unfold volume_value, get. destruct (voxel_data !! key) as [c|]; [|done].
  simpl. intros ->. done.
Qed.

Lemma of_int_neq_0 (c : N) : (0 < c)%N -> of_int c <> 0.
Proof. intros Hc. by apply Qc_pos_neq_0, of_int_pos. Qed.

Lemma masse_value_Some (v masse_vol : Qc) :
  v <> 0 -> masse_value (Some v) masse_vol = Some (v * masse_vol / Q2Qc 1000).
Proof. intros Hv. simpl. by rewrite (bool_decide_eq_false_2 _ Hv). Qed.

(** With three positive counts and a voxel volume other than zero, the rows
    are returned, and they are [rows_value]. *)
Lemma metrics_rows_value (voxel_data : gmap string N) (vv : Qc) :
  vv <> 0 ->
  (forall r, (0 < get voxel_data (role_file r))%N) ->
  metrics voxel_data (Some vv) =
    Ok (rows_value (get voxel_data "skeletal_muscle.nii.gz")
                   (get voxel_data "subcutaneous_fat.nii.gz")
                   (get voxel_data "torso_fat.nii.gz") vv).
Proof.
  intros Hvv Hpos.
  pose proof (Hpos skeletal_muscle) as Hm.
  pose proof (Hpos subcutaneous_fat) as Hs.
  pose proof (Hpos torso_fat) as Hv. simpl in Hm, Hs, Hv.
  unfold metrics. rewrite volumes_Some, bind_Ok.
  rewrite !volume_value_pos by done.
  apply rows_Some. rewrite masses_value.
  cbn [muscle graisse_sous_cut graisse_viscerale].
  by rewrite !masse_value_Some by (by apply Qcmult_neq_0; [apply of_int_neq_0|]).
Qed.

(** With a count that is zero, a voxel volume that is zero, or no voxel
    volume, a [TypeError] is raised. *)
Lemma metrics_TypeError (voxel_data : gmap string N) (voxel_volume : value) :
  voxel_volume = None \/ voxel_volume = Some 0 \/
  (exists r, get voxel_data (role_file r) = 0%N) ->
  metrics voxel_data voxel_volume = Raise TypeError.
Proof.
  intros Hbad.
  destruct (metrics voxel_data voxel_volume) as [l|e] eqn:Hmetrics;
    [|by rewrite (metrics_raise _ _ _ Hmetrics)].
  exfalso. revert Hmetrics. unfold metrics.
  destruct (volumes voxel_data voxel_volume) as [volume|e] eqn:Hvol;
    [|done]. rewrite bind_Ok.
  assert (exists r, pick r volume = None \/ pick r volume = Some 0)
    as [r Hr].
  { destruct voxel_volume as [vv|].
    - rewrite volumes_Some in Hvol. injection Hvol as <-.
      destruct Hbad as [?|[[= ->]|[r Hr]]]; [done| |].
      + exists skeletal_muscle. rewrite pick_volume_value.
        unfold volume_value. destruct (_ !! _); [|by left].
        case_bool_decide; [right|by left]. by rewrite Qcmult_0_r.
      + exists r. left. rewrite pick_volume_value. by apply volume_value_0.
    - exists skeletal_muscle. left. revert Hvol. unfold volumes, volume_of.
      repeat (destruct (truthy_int _); simpl; try discriminate).
      by intros [= <-]. }
  rewrite (rows_None volume r); [done|].
  destruct r; simpl in *; by destruct Hr as [-> | ->].
Qed.

(** X3.  The metrics are returned exactly when the three counts are positive
    and the voxel volume is a number other than zero; on every other input a
    [TypeError] is raised. *)
Theorem metrics_returned_iff (voxel_data : gmap string N)
    (voxel_volume : value) :
  ((exists result, metrics voxel_data voxel_volume = Ok result) <->
   (exists vv, voxel_volume = Some vv /\ vv <> 0) /\
   (forall r, (0 < get voxel_data (role_file r))%N)) /\
  ((forall result, metrics voxel_data voxel_volume <> Ok result) ->
   metrics voxel_data voxel_volume = Raise TypeError).
Proof.
  split; [split|].
  - intros [result Hresult].
    assert (~ (voxel_volume = None \/ voxel_volume = Some 0 \/
               exists r, get voxel_data (role_file r) = 0%N)) as Hgood.
    { intros Hbad. by rewrite (metrics_TypeError _ _ Hbad) in Hresult. }
    split.
    + destruct voxel_volume as [vv|]; [|destruct Hgood; by left].
      exists vv. split; [done|]. intros ->. destruct Hgood. right. by left.
    + intros r. destruct (decide (get voxel_data (role_file r) = 0%N)) as [H0|H0].
      * destruct Hgood. right. right. by exists r.
      * lia.
  - intros [(vv & -> & Hvv) Hpos]. eexists. by apply metrics_rows_value.
  - intros Hno.
    destruct (metrics voxel_data voxel_volume) as [l|e] eqn:Hmetrics.
    + by destruct (Hno l).
    + by rewrite (metrics_raise _ _ _ Hmetrics).
Qed.

Lemma metrics_Ok_inv (voxel_data : gmap string N) (voxel_volume : value)
    (result : list (string * value)) :
  metrics voxel_data voxel_volume = Ok result ->
  exists vv,
    voxel_volume = Some vv /\ vv <> 0 /\
    (forall r, (0 < get voxel_data (role_file r))%N) /\
    result = rows_value (get voxel_data "skeletal_muscle.nii.gz")
                        (get voxel_data "subcutaneous_fat.nii.gz")
                        (get voxel_data "torso_fat.nii.gz") vv.
Proof.
  intros Hresult.
  assert (~ (voxel_volume = None \/ voxel_volume = Some 0 \/
             exists r, get voxel_data (role_file r) = 0%N)) as Hgood.
  { intros Hbad. by rewrite (metrics_TypeError _ _ Hbad) in Hresult. }
  destruct voxel_volume as [vv|]; [|destruct Hgood; by left].
  assert (vv <> 0) as Hvv.
  { intros ->. destruct Hgood. right. by left. }
  assert (forall r, (0 < get voxel_data (role_file r))%N) as Hpos.
  { intros r.
    destruct (decide (get voxel_data (role_file r) = 0%N)) as [H0|H0]; [|lia].
    destruct Hgood. right. right. by exists r. }
  exists vv. repeat split; try done.
  rewrite (metrics_rows_value _ _ Hvv Hpos) in Hresult. by injection Hresult.
Qed.

Lemma metrics_returned_iff_aux (voxel_data : gmap string N)
    (voxel_volume : value) :
  (exists result, metrics voxel_data voxel_volume = Ok result) <->
  (exists vv, voxel_volume = Some vv /\ vv <> 0) /\
  (forall r, (0 < get voxel_data (role_file r))%N).
Proof.
  split.
  - intros [result (vv & -> & Hvv & Hpos & _)%metrics_Ok_inv]. eauto.
  - intros [(vv & -> & Hvv) Hpos]. eexists. by apply metrics_rows_value.
Qed.

(** ** What a returned table holds *)

(** X5.  Whenever the metrics are returned, the table has the eight labels
    in their fixed order and no cell is [None]: each of the three volumes,
    three masses and two ratios is a number. *)
Theorem returned_rows_have_no_None (voxel_data : gmap string N)
    (voxel_volume : value) (result : list (string * value)) :
  metrics voxel_data voxel_volume = Ok result ->
  result.*1 = labels /\ Forall (fun row => is_Some row.2) result.
Proof.
  intros (vv & -> & _ & _ & ->)%metrics_Ok_inv.
  split; [reflexivity|]. unfold rows_value. cbv zeta.
  repeat (apply Forall_cons; split; [by eexists|]). by apply Forall_nil.
Qed.

(** X5, on an upload whose analysis returns. *)
Lemma returned_rows_have_no_None_witness :
  exists result,
    analyze_voxel_data disagreeing_upload = Ok result /\
    result.*1 = labels /\
    Forall (fun row => is_Some row.2) result.
Proof.
  destruct (analyze_voxel_data disagreeing_upload) as [result|e] eqn:Hresult;
    [|exfalso; revert Hresult; vm_compute; discriminate].
  exists result. split; [reflexivity|].
  unfold analyze_voxel_data in Hresult.
  destruct (read_files disagreeing_upload) as [voxel_data voxel_volume].
  exact (returned_rows_have_no_None voxel_data voxel_volume result Hresult).
Defined.

(** ** The warning *)

Lemma names_match_length (uploaded_files : list uploaded_file) :
  names_match uploaded_files -> (3 <= length uploaded_files)%nat.
Proof.
  intros Hm.
  assert (file_names ⊆+ name <$> uploaded_files) as Hsub.
  { apply NoDup_submseteq; [apply file_names_NoDup|]. intros f. apply Hm. }
  apply submseteq_length in Hsub. by rewrite length_fmap in Hsub.
Qed.

(** X6.  The warning is shown exactly when the uploaded names are the three
    expected names and there are more than three files, that is when an
    expected name is uploaded more than once; an upload of fewer than three
    files never reaches the warning. *)
Theorem warning_iff_more_than_three (uploaded_files : list uploaded_file) :
  main uploaded_files = Warning <->
  names_match uploaded_files /\ (3 < length uploaded_files)%nat.
Proof.
  destruct (decide (uploaded_files = [])) as [->|Hne].
  { split; [done|]. intros [_ Hlen]. simpl in Hlen. lia. }
  rewrite (main_nonempty _ Hne). split.
  - case_bool_decide as Hbad; [done|].
    case_bool_decide as Hlen; [done|]. intros _.
    apply names_match_lists in Hbad.
    pose proof (names_match_length _ Hbad). split; [done|lia].
  - intros [Hm%names_match_lists Hlen].
    rewrite (bool_decide_eq_false_2 _ Hm).
    rewrite bool_decide_eq_false_2; [done|lia].
Qed.

(** ** What one file contributes *)

(** X7.  The count read from a file is at most the number of its voxels,
    and it is zero exactly when no voxel of the file is strictly positive;
    an empty grid counts zero. *)
Theorem voxel_count_bounds (f : uploaded_file) :
  (voxel_count_of f <= N.of_nat (length (data f)))%N /\
  (voxel_count_of f = 0%N <-> forall x, x ∈ data f -> ~ 0 < x).
Proof.
  unfold voxel_count_of. rewrite ndarray_sum_filter. split.
  - pose proof (length_filter (Qclt 0) (data f)). lia.
  - rewrite <- filter_nil_iff. split.
    + intros H%(Nat2N.inj _ 0%nat). by apply nil_length_inv.
    + by intros ->.
Qed.

Lemma voxel_count_pos (f : uploaded_file) :
  (0 < voxel_count_of f)%N <-> exists x, x ∈ data f /\ 0 < x.
Proof.
  unfold voxel_count_of. rewrite ndarray_sum_filter. split.
  - intros Hpos. destruct (filter _ (data f)) as [|x l] eqn:E;
      [simpl in Hpos; lia|].
    assert (x ∈ filter (Qclt 0) (data f)) as Hin
      by (rewrite E; apply list_elem_of_here).
    apply list_elem_of_filter in Hin as [Hx Hin]. by exists x.
  - intros (x & Hx & Hpos).
    assert (x ∈ filter (fun x => 0 < x) (data f)) as Hin
      by by apply list_elem_of_filter.
    destruct (filter _ (data f)); [by apply elem_of_nil in Hin|simpl; lia].
Qed.

(** ** Uploads without a repeated name *)

Lemma filter_name_unique (fs : list uploaded_file) (f : uploaded_file) :
  NoDup (name <$> fs) -> f ∈ fs ->
  filter (fun g => name g = name f) fs = [f]%list.
Proof.
  induction fs as [|g fs IH]; intros Hnd Hf; [by apply elem_of_nil in Hf|].
  rewrite fmap_cons in Hnd. apply NoDup_cons in Hnd as [Hg Hnd].
  apply elem_of_cons in Hf as [->|Hf].
  - rewrite filter_cons_True by done. f_equal.
    apply filter_nil_iff. intros h Hh Hname. apply Hg.
    rewrite <- Hname. by apply list_elem_of_fmap_2.
  - rewrite filter_cons_False; [by apply IH|].
    intros Hname. apply Hg. rewrite Hname. by apply list_elem_of_fmap_2.
Qed.

Lemma recognized_NoDup (fs : list uploaded_file) :
  NoDup (name <$> fs) -> NoDup (name <$> recognized fs).
Proof.
  intros Hnd. apply (sublist_NoDup _ (name <$> fs)); [done|].
  apply fmap_sublist. unfold recognized. apply sublist_filter.
Qed.

(** The count stored under the name of a recognised file, when no name is
    uploaded twice. *)
Lemma read_files_lookup_unique (fs : list uploaded_file) (f : uploaded_file) :
  NoDup (name <$> fs) -> f ∈ fs -> name f ∈ file_names ->
  (read_files fs).1 !! name f = Some (voxel_count_of f).
Proof.
  intros Hnd Hf Hname. unfold read_files. rewrite foldl_loop_data.
  rewrite (filter_name_unique (recognized fs) f).
  - done.
  - by apply recognized_NoDup.
  - by apply list_elem_of_filter.
Qed.

Lemma read_files_lookup_Some (fs : list uploaded_file) (key : string) (c : N) :
  (read_files fs).1 !! key = Some c ->
  exists f, f ∈ fs /\ name f = key /\ key ∈ file_names /\ voxel_count_of f = c.
Proof.
  unfold read_files. rewrite foldl_loop_data. simpl.
  destruct (last _) as [f|] eqn:Hlast; [|by rewrite lookup_empty].
  intros [= <-]. apply last_Some_elem_of in Hlast.
  apply list_elem_of_filter in Hlast as [<- Hf].
  apply list_elem_of_filter in Hf as [Hname Hf]. by exists f.
Qed.

Lemma role_file_names (key : string) :
  key ∈ file_names <-> exists r, key = role_file r.
Proof.
  unfold file_names. rewrite !elem_of_cons, elem_of_nil. split.
  - intros [->|[->|[->|[]]]];
      [by exists skeletal_muscle|by exists subcutaneous_fat|by exists torso_fat].
  - intros [[] ->]; simpl; tauto.
Qed.

(** X8.  For an upload that passes the gate (the three expected names, each
    once), the count stored under each expected name is the count of the
    file uploaded under it; so, whatever voxel volume the loop keeps, the
    metrics are returned exactly when every uploaded mask has a strictly
    positive voxel and that voxel volume is a number other than zero, and
    a [TypeError] is raised otherwise. *)
Theorem metrics_after_gate (uploaded_files : list uploaded_file)
    (voxel_volume : value) :
  name <$> uploaded_files ≡ₚ file_names ->
  (forall r, exists f,
     f ∈ uploaded_files /\ name f = role_file r /\
     get (read_files uploaded_files).1 (role_file r) = voxel_count_of f) /\
  ((exists result,
      metrics (read_files uploaded_files).1 voxel_volume = Ok result) <->
   (forall f, f ∈ uploaded_files -> exists x, x ∈ data f /\ 0 < x) /\
   (exists vv, voxel_volume = Some vv /\ vv <> 0)) /\
  ((forall result,
      metrics (read_files uploaded_files).1 voxel_volume <> Ok result) ->
   metrics (read_files uploaded_files).1 voxel_volume = Raise TypeError).
Proof.
  intros Hperm.
  assert (NoDup (name <$> uploaded_files)) as Hnd
    by (rewrite Hperm; apply file_names_NoDup).
  assert (forall f, f ∈ uploaded_files -> name f ∈ file_names) as Hrec.
  { intros f Hf. rewrite <- Hperm. by apply list_elem_of_fmap_2. }
  assert (forall r, exists f, f ∈ uploaded_files /\ name f = role_file r /\
            get (read_files uploaded_files).1 (role_file r) = voxel_count_of f)
    as Hget.
  { intros r.
    assert (role_file r ∈ name <$> uploaded_files) as Hin.
    { rewrite Hperm. apply role_file_names. by exists r. }
    apply list_elem_of_fmap in Hin as (f & Hname & Hf).
    exists f. split; [done|]. split; [done|]. unfold get.
    rewrite Hname, read_files_lookup_unique; try done. by apply Hrec. }
  split; [exact Hget|].
  destruct (read_files uploaded_files) as [voxel_data kept] eqn:Hst.
  simpl in Hget |- *.
  split; [|intros Hno;
           destruct (metrics voxel_data voxel_volume) as [l|e] eqn:Hm;
           [by destruct (Hno l)|by rewrite (metrics_raise _ _ _ Hm)]].
  rewrite (metrics_returned_iff_aux voxel_data voxel_volume). split.
  - intros [Hvv Hpos]. split; [|exact Hvv].
    intros f Hf. apply voxel_count_pos.
    destruct (proj1 (role_file_names (name f)) (Hrec f Hf)) as [r Hr].
    destruct (Hget r) as (g & Hg & Hname & Hc).
    assert (g = f) as ->.
    { assert (filter (fun h => name h = name f) uploaded_files = [f]%list)
        as E by by apply filter_name_unique.
      assert (g ∈ filter (fun h => name h = name f) uploaded_files) as Hin
        by (apply list_elem_of_filter; split; [congruence|done]).
      rewrite E in Hin. by apply list_elem_of_singleton in Hin. }
    rewrite <- Hc. apply Hpos.
  - intros [Hdata Hvv]. split; [exact Hvv|].
    intros r. destruct (Hget r) as (g & Hg & _ & ->).
    apply voxel_count_pos. by apply Hdata.
Qed.

(** X8, on an upload whose three masks have a positive voxel, with the
    voxel volume of its last file, and on one with an empty mask. *)
Lemma metrics_after_gate_witness :
  (exists result,
     metrics (read_files disagreeing_upload).1 (Some (Q2Qc 0.003))
       = Ok result) /\
  metrics (read_files empty_mask_upload).1 (Some (Q2Qc 0.001))
    = Raise TypeError.
Proof.
  split.
  - apply (proj2 (proj1 (proj2 (metrics_after_gate disagreeing_upload
                    (Some (Q2Qc 0.003)) (reflexivity file_names))))).
    split.
    + intros f Hf. exists 1.
      repeat (apply elem_of_cons in Hf as [->|Hf]);
        [split; [apply list_elem_of_here|reflexivity]..
        |by apply elem_of_nil in Hf].
    + eexists. split; [reflexivity|]. discriminate.
  - apply (proj2 (proj2 (metrics_after_gate empty_mask_upload
                    (Some (Q2Qc 0.001)) (reflexivity file_names)))).
    intros result Hresult. vm_compute in Hresult. discriminate.
Defined.

(** ** The order of the upload *)

Lemma read_files_lookup_iff (fs : list uploaded_file) (key : string) (c : N) :
  NoDup (name <$> fs) ->
  (read_files fs).1 !! key = Some c <->
  exists f, f ∈ fs /\ name f = key /\ key ∈ file_names /\ voxel_count_of f = c.
Proof.
  intros Hnd. split; [apply read_files_lookup_Some|].
  intros (f & Hf & <- & Hname & <-). by apply read_files_lookup_unique.
Qed.

Lemma read_files_same_volume (fs : list uploaded_file) (v : Qc) :
  (forall f, f ∈ fs -> voxel_volume_of f = v) ->
  (read_files fs).2 = if decide (recognized fs = []) then None else Some v.
Proof.
  intros Hv. unfold read_files. rewrite foldl_loop_volume. simpl.
  destruct (last (recognized fs)) as [f|] eqn:Hlast.
  - rewrite decide_False by (intros E; by rewrite E in Hlast).
    f_equal. apply Hv. apply last_Some_elem_of in Hlast.
    by apply list_elem_of_filter in Hlast as [_ ?].
  - apply last_None in Hlast. by rewrite decide_True.
Qed.

(** X9.  When no name is uploaded twice and all the files have the same
    voxel volume, the result does not depend on the order in which the files
    are uploaded. *)
Theorem upload_order_irrelevant (fs fs' : list uploaded_file) (v : Qc) :
  fs ≡ₚ fs' ->
  NoDup (name <$> fs) ->
  (forall f, f ∈ fs -> voxel_volume_of f = v) ->
  analyze_voxel_data fs = analyze_voxel_data fs'.
Proof.
  intros Hperm Hnd Hv.
  assert (NoDup (name <$> fs')) as Hnd' by by rewrite <- Hperm.
  assert (forall f, f ∈ fs' -> voxel_volume_of f = v) as Hv'.
  { intros f Hf. apply Hv. by rewrite Hperm. }
  assert (read_files fs = read_files fs') as Hst.
  { apply (injective_projections _ _).
    - apply map_eq. intros key. apply option_eq. intros c.
      rewrite !read_files_lookup_iff by done.
      by setoid_rewrite Hperm.
    - rewrite (read_files_same_volume _ _ Hv), (read_files_same_volume _ _ Hv').
      assert (recognized fs ≡ₚ recognized fs') as Hrec
        by (unfold recognized; by rewrite Hperm).
      destruct (decide (recognized fs = [])) as [E|E].
      + rewrite E in Hrec. apply Permutation_nil in Hrec.
        by rewrite decide_True.
      + rewrite decide_False; [done|]. intros E'. rewrite E' in Hrec.
        by apply Permutation_nil_r in Hrec. }
  unfold analyze_voxel_data. by rewrite Hst.
Qed.

(** X9, on [disagreeing_upload] with its headers made equal, uploaded in
    the reverse order. *)
Lemma upload_order_irrelevant_witness :
  let fs := [ UploadedFile "skeletal_muscle.nii.gz" [1; 1] (1, 1, 1);
              UploadedFile "subcutaneous_fat.nii.gz" [1] (1, 1, 1);
              UploadedFile "torso_fat.nii.gz" [1; 1; 1] (1, 1, 1) ] in
  analyze_voxel_data fs = analyze_voxel_data (reverse fs).
Proof.
  intros fs.
  apply (upload_order_irrelevant fs (reverse fs) (voxel_volume_of
           (UploadedFile "torso_fat.nii.gz" [1; 1; 1] (1, 1, 1)))).
  - by rewrite reverse_Permutation.
  - compute_done.
  - intros f Hf.
    repeat (apply elem_of_cons in Hf as [->|Hf]);
      [reflexivity..|by apply elem_of_nil in Hf].
Defined.

(** ** The chart *)

Lemma plot_bind_Plotted {A B : Type} (a : A) (k : A -> plot_result B) :
  (Plotted a ≫= k) = k a.
Proof. reflexivity. Qed.

Lemma iloc_lookup (df : list (string * value)) (i : nat) (row : string * value) :
  df !! i = Some row -> iloc df i = Plotted row.2.
Proof. unfold iloc. by intros ->. Qed.

Lemma iloc_out_of_range (df : list (string * value)) (i : nat) :
  (length df <= i)%nat -> iloc df i = PlotRaise IndexError.
Proof. intros Hi. unfold iloc. by rewrite lookup_ge_None_2. Qed.

Lemma annotate_no_IndexError (format_2f : Qc -> string) (masses : list value)
    (i : nat) :
  annotate format_2f i masses <> PlotRaise IndexError.
Proof.
  revert i. induction masses as [|value masses IH]; intros i; [done|].
  simpl. destruct value as [v|]; [|done]. simpl.
  specialize (IH (S i)).
  by destruct (annotate format_2f (S i) masses) as [rest|[]].
Qed.

(** X10.  On the table that [analyze_voxel_data] returns, [plot_data] draws
    the chart without error: its three bars are the masses of rows 3, 4 and
    5 of the table, under the labels of muscle, subcutaneous fat and
    visceral fat in that order, and the text above each bar is placed 0.05
    above the mass. *)
Theorem plot_data_after_analysis (format_2f : Qc -> string)
    (uploaded_files : list uploaded_file) (df : list (string * value)) :
  analyze_voxel_data uploaded_files = Ok df ->
  exists m_muscle m_sous_cut m_viscerale : Qc,
    df !! 3%nat = Some ("Masse Muscle (kg)", Some m_muscle) /\
    df !! 4%nat = Some ("Masse Graisse Sous-cutanée (kg)", Some m_sous_cut) /\
    df !! 5%nat = Some ("Masse Graisse Viscerale (kg)", Some m_viscerale) /\
    plot_data format_2f df =
      Plotted
        (Chart [ ("Muscle", Some m_muscle);
                 ("Graisse Sous-cutanée", Some m_sous_cut);
                 ("Graisse Viscerale", Some m_viscerale) ]
               [ Annotation 0 (m_muscle + Q2Qc 0.05)
                            (format_2f m_muscle +:+ " kg");
                 Annotation 1 (m_sous_cut + Q2Qc 0.05)
                            (format_2f m_sous_cut +:+ " kg");
                 Annotation 2 (m_viscerale + Q2Qc 0.05)
                            (format_2f m_viscerale +:+ " kg") ]
               "Masse (kg)" "Masse des différents tissus").
Proof.
  unfold analyze_voxel_data.
  destruct (read_files uploaded_files) as [voxel_data voxel_volume].
  intros (vv & -> & _ & _ & ->)%metrics_Ok_inv.
  eexists _, _, _. repeat split; reflexivity.
Qed.

(** X10, on an upload whose analysis returns. *)
Lemma plot_data_after_analysis_witness :
  exists chart,
    (df ← operator (analyze_voxel_data disagreeing_upload);
     plot_data (fun _ => "") df) = Plotted chart /\
    length (bars chart) = 3%nat.
Proof.
  destruct (analyze_voxel_data disagreeing_upload) as [df|e] eqn:Hdf;
    [|exfalso; revert Hdf; vm_compute; discriminate].
  destruct (plot_data_after_analysis (fun _ => "") disagreeing_upload df Hdf)
    as (m3 & m4 & m5 & _ & _ & _ & Hplot).
  eexists. split; [exact Hplot|reflexivity].
Defined.

(** X11.  [plot_data] raises [IndexError] exactly on a table of fewer than
    six rows: the three positional reads are the only source of that
    error. *)
Theorem plot_data_IndexError_iff (format_2f : Qc -> string)
    (df : list (string * value)) :
  plot_data format_2f df = PlotRaise IndexError <-> (length df < 6)%nat.
Proof.
  unfold plot_data. split.
  - intros Hraise. destruct (decide (length df < 6)%nat) as [|Hlen]; [done|].
    exfalso. revert Hraise.
    destruct (lookup_lt_is_Some_2 df 3) as [r3 H3]; [lia|].
    destruct (lookup_lt_is_Some_2 df 4) as [r4 H4]; [lia|].
    destruct (lookup_lt_is_Some_2 df 5) as [r5 H5]; [lia|].
    rewrite (iloc_lookup _ _ _ H3), (iloc_lookup _ _ _ H4),
      (iloc_lookup _ _ _ H5), !plot_bind_Plotted.
    pose proof (annotate_no_IndexError format_2f [r3.2; r4.2; r5.2] 0) as Hno.
    by destruct (annotate format_2f 0 [r3.2; r4.2; r5.2]) as [t|[]].
  - intros Hlen.
    destruct (df !! 3%nat) as [r3|] eqn:H3;
      [|unfold iloc; by rewrite H3].
    rewrite (iloc_lookup _ _ _ H3), plot_bind_Plotted.
    destruct (df !! 4%nat) as [r4|] eqn:H4;
      [|unfold iloc; by rewrite H4].
    rewrite (iloc_lookup _ _ _ H4), plot_bind_Plotted.
    rewrite iloc_out_of_range; [done|lia].
Qed.

(** ** Too few files *)

Lemma missing_files_nil_length (uploaded_files : list uploaded_file) :
  missing_files_of uploaded_files = [] -> (3 <= length uploaded_files)%nat.
Proof.
  unfold missing_files_of. rewrite filter_nil_iff. intros Hall.
  assert (file_names ⊆+ name <$> uploaded_files) as Hsub.
  { apply NoDup_submseteq; [apply file_names_NoDup|]. intros f Hf.
    destruct (decide (f ∈ name <$> uploaded_files)) as [|Hout]; [done|].
    by destruct (Hall f Hf). }
  apply submseteq_length in Hsub. by rewrite length_fmap in Hsub.
Qed.

(** X12.  An upload of one or two files always gets the error, never the
    warning or the analysis, and the error names at least one missing
    file. *)
Theorem too_few_files_error (uploaded_files : list uploaded_file) :
  uploaded_files <> [] -> (length uploaded_files < 3)%nat ->
  exists missing extra,
    main uploaded_files = Error missing extra /\ missing <> [].
Proof.
  intros Hne Hlen. rewrite (main_nonempty _ Hne).
  assert (missing_files_of uploaded_files <> []) as Hmissing.
  { intros E. apply missing_files_nil_length in E. lia. }
  rewrite bool_decide_eq_true_2 by by left. eauto.
Qed.

(** X12, on an upload of the muscle mask alone. *)
Lemma too_few_files_error_witness :
  exists missing extra,
    main [UploadedFile "skeletal_muscle.nii.gz" [1] (1, 1, 1)]
      = Error missing extra /\ missing <> [].
Proof.
  apply too_few_files_error; [discriminate|simpl; lia].
Defined.
